(** * TopoFlow: the energy-balance evaporation component

    A shallow embedding of [topoflow/components/evap_energy_balance.py]
    (class [evap_component]) and the properties its specification states.

    Numbers are IEEE-754 binary64 values ([np.float64]), modelled by the
    Standard Library's executable specification [SpecFloat] at precision 53
    and exponent bound 1024.  State fields are NumPy arrays: a shape and
    row-major data, a scalar being the array of shape [[]].  The dictionaries
    of the class are finite maps with string keys.  Methods are computations
    in a state-and-exception monad in which the state survives a raise, as
    a Python object does. *)

From Stdlib Require Import ZArith Lia Bool List String Ascii.
From Stdlib Require Import Floats.SpecFloat.
From stdpp Require Import base option strings gmap.

Import ListNotations.

(* ===================================================================== *)
(** * Binary64 arithmetic *)
(* ===================================================================== *)

Module F64.
Local Open Scope Z_scope.

Definition prec : Z := 53.
Definition emax : Z := 1024.

(** A binary64 datum.  Arithmetic results are always valid encodings; an
    input is assumed valid where a proof depends on the encoding. *)
Definition float64 : Type := spec_float.

Definition valid (x : float64) : bool := valid_binary prec emax x.

Definition add (x y : float64) : float64 := SFadd prec emax x y.
Definition sub (x y : float64) : float64 := SFsub prec emax x y.
Definition mul (x y : float64) : float64 := SFmul prec emax x y.
Definition div (x y : float64) : float64 := SFdiv prec emax x y.

Definition eqb (x y : float64) : bool := SFeqb x y.
Definition ltb (x y : float64) : bool := SFltb x y.
Definition leb (x y : float64) : bool := SFleb x y.
Definition gtb (x y : float64) : bool := SFltb y x.
Definition geb (x y : float64) : bool := SFleb y x.

Definition isnan (x : float64) : bool :=
  match x with S754_nan => true | _ => false end.

(** [np.isfinite]: neither an infinity nor a NaN. *)
Definition isfinite (x : float64) : bool :=
  match x with
  | S754_zero _ | S754_finite _ _ _ => true
  | S754_infinity _ | S754_nan => false
  end.

(** The sign bit; [None] for a NaN. *)
Definition signbit (x : float64) : option bool :=
  match x with
  | S754_zero s | S754_infinity s | S754_finite s _ _ => Some s
  | S754_nan => None
  end.

(** The value of an integer literal, rounded to nearest even. *)
Definition of_Z (n : Z) : float64 := binary_normalize prec emax n 0 false.

(** The value of the decimal literal [n / d], correctly rounded, as the
    Python parser reads [0.45] (45/100) or [1.0e-7] (1/10^7); numerator and
    denominator are below 2^53, so both convert exactly. *)
Definition of_ratio (n d : Z) : float64 := div (of_Z n) (of_Z d).

Definition zero : float64 := S754_zero false.

(** Not a zero of either sign. *)
Definition nonzero (x : float64) : bool :=
  match x with S754_zero _ => false | _ => true end.

(** The signed significand of a finite number brought to exponent [ez]. *)
Definition aligned (s : bool) (m : positive) (e ez : Z) : Z :=
  cond_Zopp s (Zpos (fst (shl_align m e ez))).

(** The power of two [2^e], for [e] in the normal range. *)
Definition pow2 (e : Z) : float64 := S754_finite false (2 ^ 52) (e - 52).

(** [np.maximum] on two float64 items, as NumPy's inner loop has it:
    [(in1 >= in2 || isnan(in1)) ? in1 : in2].  A NaN on either side wins. *)
Definition maximum (in1 in2 : float64) : float64 :=
  if geb in1 in2 || isnan in1 then in1 else in2.

End F64.

(* ===================================================================== *)
(** * NumPy arrays *)
(* ===================================================================== *)

Module Ndarray.
Local Open Scope nat_scope.

(** An array: its shape and its items in row-major order.  A scalar
    ([np.float64] or a 0-d array) has shape [[]] and one item. *)
Record ndarray (A : Type) : Type := mk_ndarray {
  shape : list nat;
  data : list A
}.
Arguments mk_ndarray {A} _ _.
Arguments shape {A} _.
Arguments data {A} _.

Definition size (s : list nat) : nat := fold_right Nat.mul 1 s.

Definition wf {A} (a : ndarray A) : Prop := length (data a) = size (shape a).

Definition scalar {A} (x : A) : ndarray A := mk_ndarray [] [x].

(** [np.ndim]. *)
Definition ndim {A} (a : ndarray A) : nat := length (shape a).

(** The first [k] consecutive blocks of [n] items of [l]. *)
Fixpoint chunks {A} (n k : nat) (l : list A) : list (list A) :=
  match k with
  | O => []
  | S k' => firstn n l :: chunks n k' (skipn n l)
  end.

(** Data of shape [s] viewed at shape [t] of the same rank: an axis of
    length 1 is repeated along the target axis, any other axis is kept. *)
Fixpoint expand {A} (s t : list nat) (d : list A) : list A :=
  match s, t with
  | s1 :: s', t1 :: t' =>
      if Nat.eqb s1 t1
      then concat (map (expand s' t') (chunks (size s') s1 d))
      else concat (repeat (expand s' t' d) t1)
  | _, _ => d
  end.

(** Shapes are aligned on their last axis: the shorter is padded with
    leading axes of length 1. *)
Definition pad (n : nat) (s : list nat) : list nat :=
  repeat 1 (n - length s) ++ s.

(** The common shape of two shapes of equal rank, if they are compatible:
    on each axis the lengths are equal or one of them is 1. *)
Fixpoint bdims (s t : list nat) : option (list nat) :=
  match s, t with
  | [], [] => Some []
  | a :: s', b :: t' =>
      match bdims s' t' with
      | Some r =>
          if Nat.eqb a b then Some (a :: r)
          else if Nat.eqb a 1 then Some (b :: r)
          else if Nat.eqb b 1 then Some (a :: r)
          else None
      | None => None
      end
  | _, _ => None
  end.

Definition broadcast_shapes (s t : list nat) : option (list nat) :=
  let n := Nat.max (length s) (length t) in
  bdims (pad n s) (pad n t).

(** A binary ufunc: the operands are broadcast to their common shape and
    combined item by item; [None] is NumPy's
    "operands could not be broadcast together". *)
Definition binop {A} (op : A -> A -> A) (a b : ndarray A) : option (ndarray A) :=
  match broadcast_shapes (shape a) (shape b) with
  | Some t =>
      let n := length t in
      Some (mk_ndarray t
              (zip_with op (expand (pad n (shape a)) t (data a))
                           (expand (pad n (shape b)) t (data b))))
  | None => None
  end.

(** The item of [a] that takes part at flat position [k] of a grid
    computation: a scalar contributes its one item everywhere. *)
Definition item {A} (dflt : A) (a : ndarray A) (k : nat) : A :=
  match shape a with
  | [] => nth 0 (data a) dflt
  | _ :: _ => nth k (data a) dflt
  end.

(** A field of a run on grids of shape [t]: a scalar or a grid of that shape. *)
Definition conforms {A} (t : list nat) (a : ndarray A) : Prop :=
  wf a /\ (shape a = [] \/ shape a = t).

End Ndarray.

(* ===================================================================== *)
(** * Python values and effects *)
(* ===================================================================== *)

Import F64 Ndarray.
Local Open Scope string_scope.

(** [str.lower] on ASCII text. *)
Definition lower_ascii (c : ascii) : ascii :=
  let n := nat_of_ascii c in
  if (Nat.leb 65 n && Nat.leb n 90)%bool then ascii_of_nat (n + 32) else c.

Fixpoint lower (s : string) : string :=
  match s with
  | EmptyString => EmptyString
  | String c s' => String (lower_ascii c) (lower s')
  end.

Inductive exn : Type :=
  | KeyError (key : string)
  | AttributeError (name : string)
  | ValueError (msg : string)
  | IOError (msg : string).

Inductive outcome (A : Type) : Type :=
  | Return (a : A)
  | Raise (e : exn).
Arguments Return {A} _.
Arguments Raise {A} _.

(** A computation on a state [S]: it returns or raises, and in both cases
    leaves a state behind. *)
Definition M (S A : Type) : Type := S -> outcome A * S.

Definition ret {S A} (a : A) : M S A := fun st => (Return a, st).

Definition bind {S A B} (m : M S A) (k : A -> M S B) : M S B :=
  fun st =>
    match m st with
    | (Return a, st') => k a st'
    | (Raise e, st') => (Raise e, st')
    end.

Definition raise {S A} (e : exn) : M S A := fun st => (Raise e, st).

(** [try: body / except: handler], a bare [except] that catches everything. *)
Definition try_except {S A} (body : M S A) (handler : M S A) : M S A :=
  fun st =>
    match body st with
    | (Return a, st') => (Return a, st')
    | (Raise _, st') => handler st'
    end.

Definition gets {S A} (f : S -> A) : M S A := fun st => (Return (f st), st).

Definition modify {S} (f : S -> S) : M S unit := fun st => (Return tt, f st).

Declare Scope py_scope.
Delimit Scope py_scope with py.
Notation "x <- m ;; k" := (bind m (fun x => k))
  (at level 20, m at level 99, k at level 200, right associativity) : py_scope.
Notation "m ;; k" := (bind m (fun _ => k))
  (at level 100, k at level 200, right associativity) : py_scope.
Local Open Scope py_scope.

(** [d[key]] on a dictionary. *)
Definition getitem {S} (d : gmap string string) (key : string) : M S string :=
  match d !! key with
  | Some v => ret v
  | None => raise (KeyError key)
  end.

(** What NumPy raises on operands of incompatible shapes. *)
Definition broadcast_error : exn :=
  ValueError "operands could not be broadcast together".

(** What NumPy raises when the truth value of an array of several items
    is asked for. *)
Definition truth_value_error : exn :=
  ValueError "The truth value of an array with more than one element is ambiguous. Use a.any() or a.all()".

(** An arithmetic ufunc on arrays; incompatible shapes raise. *)
Definition ufunc {S} (op : float64 -> float64 -> float64)
    (a b : ndarray float64) : M S (ndarray float64) :=
  match binop op a b with
  | Some c => ret c
  | None => raise broadcast_error
  end.

(* ===================================================================== *)
(** * The file-reading utility [topoflow.utils.model_input] *)
(* ===================================================================== *)

(** The interface of [model_input] that the component uses.  The module is
    outside this file; the component is verified against any implementation
    of it.  [filesystem] is everything the utility can see or change: the
    files and the read positions of the open ones. *)
Class ModelInput : Type := {
  file_unit : Type;
  rti_info : Type;
  filesystem : Type;
  open_file : string -> string -> M filesystem file_unit;
  read_next : file_unit -> string -> rti_info ->
              M filesystem (option (ndarray float64));
  close : file_unit -> M filesystem unit
}.

(* ===================================================================== *)
(** * The component *)
(* ===================================================================== *)

(** The attributes of the class object, shared by its instances. *)
Record class_attrs : Type := mk_class_attrs {
  _att_map : gmap string string;
  _input_var_names : list string;
  _output_var_names : list string;
  _var_name_map : gmap string string;
  _var_units_map : gmap string string
}.

(** The class body of [evap_component]. *)
Definition evap_component : class_attrs := {|
  _att_map :=
  list_to_map [
    ("model_name", "TopoFlow_Evaporation_Energy_Balance");
    ("version", "3.1");
    ("author_name", "Scott D. Peckham");
    ("grid_type", "uniform");
    ("time_step_type", "fixed");
    ("step_method", "explicit");
    ("comp_name", "EvapEnergyBalance");
    ("model_family", "TopoFlow");
    ("cfg_template_file", "Evap_Energy_Balance.cfg.in");
    ("cfg_extension", "_evap_energy_balance.cfg");
    ("cmt_var_prefix", "/EvapEnergyBalance/Input/Var/");
    ("gui_xml_file", "/home/csdms/cca/topoflow/3.1/src/share/cmt/gui/Evap_Energy_Balance.xml");
    ("dialog_title", "Evaporation: Energy Balance Parameters");
    ("time_units", "seconds") ];
  _input_var_names :=
  [ "air__temperature";
    "channel_water__depth";
    "land_surface_air__latent_heat_flux";
    "land_surface__net_irradiation_flux";
    "land_surface__temperature";
    "soil_model_top_layer__porosity";
    "soil_model_top_layer__wetted_thickness";
    "soil_water_table_surface__elevation";
    "snow__depth" ];
  _output_var_names :=
  [ "land_water__evaporation_rate";
    "land_water__area_time_integral_of_evaporation_rate";
    "model__time_step";
    "soil_surface__conduction_energy_flux" ];
  _var_name_map :=
  list_to_map [
    ("air__temperature", "T_air");
    ("channel_water__depth", "depth");
    ("land_surface_air__latent_heat_flux", "Qe");
    ("land_surface__net_irradiation_flux", "Q_sum");
    ("land_surface__temperature", "T_surf");
    ("soil_model_top_layer__porosity", "p0");
    ("soil_model_top_layer__wetted_thickness", "y0");
    ("soil_water_table_surface__elevation", "h_table");
    ("snow__depth", "h_snow");
    ("land_water__evaporation_rate", "ET");
    ("land_water__area_time_integral_of_evaporation_rate", "vol_ET");
    ("model__time_step", "dt");
    ("soil_surface__conduction_energy_flux", "Qc");
    ("land_surface__elevation", "DEM");
    ("soil__reference_depth_temperature", "T_soil_x");
    ("soil__temperature_reference_depth", "soil_x");
    ("soil__thermal_conductivity", "K_soil") ];
  _var_units_map :=
  list_to_map [
    ("air__temperature", "deg_C");
    ("channel_water__depth", "m");
    ("land_surface_air__latent_heat_flux", "W m-2");
    ("land_surface__net_irradiation_flux", "W m-2");
    ("land_surface__temperature", "deg_C");
    ("soil_model_top_layer__porosity", "1");
    ("soil_model_top_layer__wetted_thickness", "m");
    ("soil_water_table_surface__elevation", "m");
    ("snow__depth", "m");
    ("land_water__evaporation_rate", "m s-1");
    ("land_water__area_time_integral_of_evaporation_rate", "m3");
    ("model__time_step", "s");
    ("soil_surface__conduction_energy_flux", "W m-2");
    ("land_surface__elevation", "m");
    ("soil__reference_depth_temperature", "deg_C");
    ("soil__temperature_reference_depth", "m");
    ("soil__thermal_conductivity", "W m-1 deg_C-1]") ]
|}.

Section Component.
Context `{MI : ModelInput}.

(** The attributes of an instance that the methods of this file use. *)
Record component : Type := mk_component {
  Q_sum : ndarray float64;
  Qe : ndarray float64;
  T_surf : ndarray float64;
  T_air : ndarray float64;
  h_snow : ndarray float64;
  T_soil_x : ndarray float64;
  soil_x : ndarray float64;
  K_soil : ndarray float64;
  Qc : ndarray float64;
  ET : ndarray float64;
  ALL_SCALARS : bool;
  in_directory : string;
  K_soil_file : string;
  soil_x_file : string;
  T_soil_x_file : string;
  K_soil_type : string;
  soil_x_type : string;
  T_soil_x_type : string;
  K_soil_unit : file_unit;
  soil_x_unit : file_unit;
  T_soil_x_unit : file_unit;
  rti : rti_info
}.

Definition set_Q_sum (v : ndarray float64) (c : component) : component :=
  mk_component v (Qe c) (T_surf c) (T_air c) (h_snow c) (T_soil_x c)
    (soil_x c) (K_soil c) (Qc c) (ET c) (ALL_SCALARS c) (in_directory c)
    (K_soil_file c) (soil_x_file c) (T_soil_x_file c) (K_soil_type c)
    (soil_x_type c) (T_soil_x_type c) (K_soil_unit c) (soil_x_unit c)
    (T_soil_x_unit c) (rti c).

Definition set_Qe (v : ndarray float64) (c : component) : component :=
  mk_component (Q_sum c) v (T_surf c) (T_air c) (h_snow c) (T_soil_x c)
    (soil_x c) (K_soil c) (Qc c) (ET c) (ALL_SCALARS c) (in_directory c)
    (K_soil_file c) (soil_x_file c) (T_soil_x_file c) (K_soil_type c)
    (soil_x_type c) (T_soil_x_type c) (K_soil_unit c) (soil_x_unit c)
    (T_soil_x_unit c) (rti c).

Definition set_T_surf (v : ndarray float64) (c : component) : component :=
  mk_component (Q_sum c) (Qe c) v (T_air c) (h_snow c) (T_soil_x c)
    (soil_x c) (K_soil c) (Qc c) (ET c) (ALL_SCALARS c) (in_directory c)
    (K_soil_file c) (soil_x_file c) (T_soil_x_file c) (K_soil_type c)
    (soil_x_type c) (T_soil_x_type c) (K_soil_unit c) (soil_x_unit c)
    (T_soil_x_unit c) (rti c).

Definition set_T_air (v : ndarray float64) (c : component) : component :=
  mk_component (Q_sum c) (Qe c) (T_surf c) v (h_snow c) (T_soil_x c)
    (soil_x c) (K_soil c) (Qc c) (ET c) (ALL_SCALARS c) (in_directory c)
    (K_soil_file c) (soil_x_file c) (T_soil_x_file c) (K_soil_type c)
    (soil_x_type c) (T_soil_x_type c) (K_soil_unit c) (soil_x_unit c)
    (T_soil_x_unit c) (rti c).

Definition set_h_snow (v : ndarray float64) (c : component) : component :=
  mk_component (Q_sum c) (Qe c) (T_surf c) (T_air c) v (T_soil_x c)
    (soil_x c) (K_soil c) (Qc c) (ET c) (ALL_SCALARS c) (in_directory c)
    (K_soil_file c) (soil_x_file c) (T_soil_x_file c) (K_soil_type c)
    (soil_x_type c) (T_soil_x_type c) (K_soil_unit c) (soil_x_unit c)
    (T_soil_x_unit c) (rti c).

Definition set_T_soil_x (v : ndarray float64) (c : component) : component :=
  mk_component (Q_sum c) (Qe c) (T_surf c) (T_air c) (h_snow c) v (soil_x
    c) (K_soil c) (Qc c) (ET c) (ALL_SCALARS c) (in_directory c)
    (K_soil_file c) (soil_x_file c) (T_soil_x_file c) (K_soil_type c)
    (soil_x_type c) (T_soil_x_type c) (K_soil_unit c) (soil_x_unit c)
    (T_soil_x_unit c) (rti c).

Definition set_soil_x (v : ndarray float64) (c : component) : component :=
  mk_component (Q_sum c) (Qe c) (T_surf c) (T_air c) (h_snow c) (T_soil_x
    c) v (K_soil c) (Qc c) (ET c) (ALL_SCALARS c) (in_directory c)
    (K_soil_file c) (soil_x_file c) (T_soil_x_file c) (K_soil_type c)
    (soil_x_type c) (T_soil_x_type c) (K_soil_unit c) (soil_x_unit c)
    (T_soil_x_unit c) (rti c).

Definition set_K_soil (v : ndarray float64) (c : component) : component :=
  mk_component (Q_sum c) (Qe c) (T_surf c) (T_air c) (h_snow c) (T_soil_x
    c) (soil_x c) v (Qc c) (ET c) (ALL_SCALARS c) (in_directory c)
    (K_soil_file c) (soil_x_file c) (T_soil_x_file c) (K_soil_type c)
    (soil_x_type c) (T_soil_x_type c) (K_soil_unit c) (soil_x_unit c)
    (T_soil_x_unit c) (rti c).

Definition set_Qc (v : ndarray float64) (c : component) : component :=
  mk_component (Q_sum c) (Qe c) (T_surf c) (T_air c) (h_snow c) (T_soil_x
    c) (soil_x c) (K_soil c) v (ET c) (ALL_SCALARS c) (in_directory c)
    (K_soil_file c) (soil_x_file c) (T_soil_x_file c) (K_soil_type c)
    (soil_x_type c) (T_soil_x_type c) (K_soil_unit c) (soil_x_unit c)
    (T_soil_x_unit c) (rti c).

Definition set_ET (v : ndarray float64) (c : component) : component :=
  mk_component (Q_sum c) (Qe c) (T_surf c) (T_air c) (h_snow c) (T_soil_x
    c) (soil_x c) (K_soil c) (Qc c) v (ALL_SCALARS c) (in_directory c)
    (K_soil_file c) (soil_x_file c) (T_soil_x_file c) (K_soil_type c)
    (soil_x_type c) (T_soil_x_type c) (K_soil_unit c) (soil_x_unit c)
    (T_soil_x_unit c) (rti c).

Definition set_ALL_SCALARS (v : bool) (c : component) : component :=
  mk_component (Q_sum c) (Qe c) (T_surf c) (T_air c) (h_snow c) (T_soil_x
    c) (soil_x c) (K_soil c) (Qc c) (ET c) v (in_directory c) (K_soil_file
    c) (soil_x_file c) (T_soil_x_file c) (K_soil_type c) (soil_x_type c)
    (T_soil_x_type c) (K_soil_unit c) (soil_x_unit c) (T_soil_x_unit c)
    (rti c).

Definition set_in_directory (v : string) (c : component) : component :=
  mk_component (Q_sum c) (Qe c) (T_surf c) (T_air c) (h_snow c) (T_soil_x
    c) (soil_x c) (K_soil c) (Qc c) (ET c) (ALL_SCALARS c) v (K_soil_file
    c) (soil_x_file c) (T_soil_x_file c) (K_soil_type c) (soil_x_type c)
    (T_soil_x_type c) (K_soil_unit c) (soil_x_unit c) (T_soil_x_unit c)
    (rti c).

Definition set_K_soil_file (v : string) (c : component) : component :=
  mk_component (Q_sum c) (Qe c) (T_surf c) (T_air c) (h_snow c) (T_soil_x
    c) (soil_x c) (K_soil c) (Qc c) (ET c) (ALL_SCALARS c) (in_directory
    c) v (soil_x_file c) (T_soil_x_file c) (K_soil_type c) (soil_x_type c)
    (T_soil_x_type c) (K_soil_unit c) (soil_x_unit c) (T_soil_x_unit c)
    (rti c).

Definition set_soil_x_file (v : string) (c : component) : component :=
  mk_component (Q_sum c) (Qe c) (T_surf c) (T_air c) (h_snow c) (T_soil_x
    c) (soil_x c) (K_soil c) (Qc c) (ET c) (ALL_SCALARS c) (in_directory
    c) (K_soil_file c) v (T_soil_x_file c) (K_soil_type c) (soil_x_type c)
    (T_soil_x_type c) (K_soil_unit c) (soil_x_unit c) (T_soil_x_unit c)
    (rti c).

Definition set_T_soil_x_file (v : string) (c : component) : component :=
  mk_component (Q_sum c) (Qe c) (T_surf c) (T_air c) (h_snow c) (T_soil_x
    c) (soil_x c) (K_soil c) (Qc c) (ET c) (ALL_SCALARS c) (in_directory
    c) (K_soil_file c) (soil_x_file c) v (K_soil_type c) (soil_x_type c)
    (T_soil_x_type c) (K_soil_unit c) (soil_x_unit c) (T_soil_x_unit c)
    (rti c).

Definition set_K_soil_type (v : string) (c : component) : component :=
  mk_component (Q_sum c) (Qe c) (T_surf c) (T_air c) (h_snow c) (T_soil_x
    c) (soil_x c) (K_soil c) (Qc c) (ET c) (ALL_SCALARS c) (in_directory
    c) (K_soil_file c) (soil_x_file c) (T_soil_x_file c) v (soil_x_type c)
    (T_soil_x_type c) (K_soil_unit c) (soil_x_unit c) (T_soil_x_unit c)
    (rti c).

Definition set_soil_x_type (v : string) (c : component) : component :=
  mk_component (Q_sum c) (Qe c) (T_surf c) (T_air c) (h_snow c) (T_soil_x
    c) (soil_x c) (K_soil c) (Qc c) (ET c) (ALL_SCALARS c) (in_directory
    c) (K_soil_file c) (soil_x_file c) (T_soil_x_file c) (K_soil_type c) v
    (T_soil_x_type c) (K_soil_unit c) (soil_x_unit c) (T_soil_x_unit c)
    (rti c).

Definition set_T_soil_x_type (v : string) (c : component) : component :=
  mk_component (Q_sum c) (Qe c) (T_surf c) (T_air c) (h_snow c) (T_soil_x
    c) (soil_x c) (K_soil c) (Qc c) (ET c) (ALL_SCALARS c) (in_directory
    c) (K_soil_file c) (soil_x_file c) (T_soil_x_file c) (K_soil_type c)
    (soil_x_type c) v (K_soil_unit c) (soil_x_unit c) (T_soil_x_unit c)
    (rti c).

Definition set_K_soil_unit (v : file_unit) (c : component) : component :=
  mk_component (Q_sum c) (Qe c) (T_surf c) (T_air c) (h_snow c) (T_soil_x
    c) (soil_x c) (K_soil c) (Qc c) (ET c) (ALL_SCALARS c) (in_directory
    c) (K_soil_file c) (soil_x_file c) (T_soil_x_file c) (K_soil_type c)
    (soil_x_type c) (T_soil_x_type c) v (soil_x_unit c) (T_soil_x_unit c)
    (rti c).

Definition set_soil_x_unit (v : file_unit) (c : component) : component :=
  mk_component (Q_sum c) (Qe c) (T_surf c) (T_air c) (h_snow c) (T_soil_x
    c) (soil_x c) (K_soil c) (Qc c) (ET c) (ALL_SCALARS c) (in_directory
    c) (K_soil_file c) (soil_x_file c) (T_soil_x_file c) (K_soil_type c)
    (soil_x_type c) (T_soil_x_type c) (K_soil_unit c) v (T_soil_x_unit c)
    (rti c).

Definition set_T_soil_x_unit (v : file_unit) (c : component) : component :=
  mk_component (Q_sum c) (Qe c) (T_surf c) (T_air c) (h_snow c) (T_soil_x
    c) (soil_x c) (K_soil c) (Qc c) (ET c) (ALL_SCALARS c) (in_directory
    c) (K_soil_file c) (soil_x_file c) (T_soil_x_file c) (K_soil_type c)
    (soil_x_type c) (T_soil_x_type c) (K_soil_unit c) (soil_x_unit c) v
    (rti c).

Definition set_rti (v : rti_info) (c : component) : component :=
  mk_component (Q_sum c) (Qe c) (T_surf c) (T_air c) (h_snow c) (T_soil_x
    c) (soil_x c) (K_soil c) (Qc c) (ET c) (ALL_SCALARS c) (in_directory
    c) (K_soil_file c) (soil_x_file c) (T_soil_x_file c) (K_soil_type c)
    (soil_x_type c) (T_soil_x_type c) (K_soil_unit c) (soil_x_unit c)
    (T_soil_x_unit c) v.

(** What a method can see and change: the instance, its class, the files
    and the text printed so far. *)
Record state : Type := mk_state {
  self : component;
  cls : class_attrs;
  files : filesystem;
  stdout : list string
}.

Definition attr {A} (f : component -> A) : M state A :=
  gets (fun st => f (self st)).

Definition setattr {A} (set : A -> component -> component) (v : A) : M state unit :=
  modify (fun st => mk_state (set v (self st)) (cls st) (files st) (stdout st)).

Definition print (line : string) : M state unit :=
  modify (fun st => mk_state (self st) (cls st) (files st) (stdout st ++ [line])).

(** A call into [model_input]: it acts on the files only. *)
Definition call {A} (m : M filesystem A) : M state A :=
  fun st =>
    let '(r, fs) := m (files st) in
    (r, mk_state (self st) (cls st) fs (stdout st)).

(** ** Metadata *)

Definition get_attribute (att_name : string) : M state (option string) :=
  try_except
    (d <- gets (fun st => _att_map (cls st)) ;;
     v <- getitem d (lower att_name) ;;
     ret (Some v))
    (print "###################################################" ;;
     print (" ERROR: Could not find attribute: " ++ att_name) ;;
     print "###################################################" ;;
     print " " ;;
     ret None).

Definition get_input_var_names : M state (list string) :=
  gets (fun st => _input_var_names (cls st)).

Definition get_output_var_names : M state (list string) :=
  gets (fun st => _output_var_names (cls st)).

Definition get_var_name (long_var_name : string) : M state string :=
  d <- gets (fun st => _var_name_map (cls st)) ;;
  getitem d long_var_name.

Definition get_var_units (long_var_name : string) : M state string :=
  d <- gets (fun st => _var_units_map (cls st)) ;;
  getitem d long_var_name.

(** ** Input types *)

(** The numeric attributes by name, for [getattr]. *)
Definition numeric_attrs : list (string * (component -> ndarray float64)) :=
  [ ("Q_sum", Q_sum); ("Qe", Qe); ("T_surf", T_surf); ("T_air", T_air);
    ("h_snow", h_snow); ("T_soil_x", T_soil_x); ("soil_x", soil_x);
    ("K_soil", K_soil); ("Qc", Qc); ("ET", ET) ].

Fixpoint assoc {A} (key : string) (l : list (string * A)) : option A :=
  match l with
  | [] => None
  | (k, v) :: l' => if String.eqb key k then Some v else assoc key l'
  end.

Definition getattr (name : string) : M state (ndarray float64) :=
  match assoc name numeric_attrs with
  | Some f => attr f
  | None => raise (AttributeError name)
  end.

(** Modelled from the spec: [is_scalar] of the base class, which is not in
    this file.  The specification has it tell, for a named input, whether
    it is a scalar or a grid: the attribute of that name is a scalar when
    it has no axes. *)
Definition is_scalar (var_name : string) : M state bool :=
  a <- getattr var_name ;;
  ret (Nat.eqb (ndim a) 0).

(** [np.all] on an array of booleans. *)
Definition np_all (l : list bool) : bool := forallb (fun b => b) l.

Definition check_input_types : M state unit :=
  b1 <- is_scalar "T_soil_x" ;;
  b2 <- is_scalar "soil_x" ;;
  b3 <- is_scalar "K_soil" ;;
  b4 <- is_scalar "h_snow" ;;
  b5 <- is_scalar "Q_sum" ;;
  b6 <- is_scalar "Qe" ;;
  b7 <- is_scalar "T_air" ;;
  let are_scalars := [b1; b2; b3; b4; b5; b6; b7] in
  setattr set_ALL_SCALARS (np_all are_scalars).

(** ** The evaporation rate *)

(** [np.float64(2.5E+9)], the product of water density and latent heat of
    vaporisation. *)
Definition rho_w_Lv : float64 := of_Z 2500000000.

Definition update_ET_rate : M state unit :=
  Q_sum <- attr Q_sum ;;
  Qe <- attr Qe ;;
  T_surf <- attr T_surf ;;
  T_soil_x <- attr T_soil_x ;;
  delta_T <- ufunc sub T_soil_x T_surf ;;
  K_soil <- attr K_soil ;;
  K_delta_T <- ufunc mul K_soil delta_T ;;
  soil_x <- attr soil_x ;;
  Qc <- ufunc div K_delta_T soil_x ;;
  setattr set_Qc Qc ;;
  Qet <- ufunc sub Q_sum Qe ;;
  ET <- ufunc div Qet (scalar rho_w_Lv) ;;
  ET_max <- ufunc maximum ET (scalar zero) ;;
  setattr set_ET ET_max.

(** ** Input files *)

Definition open_input_files : M state unit :=
  d <- attr in_directory ;;
  f <- attr K_soil_file ;;
  setattr set_K_soil_file (d ++ f) ;;
  d <- attr in_directory ;;
  f <- attr soil_x_file ;;
  setattr set_soil_x_file (d ++ f) ;;
  d <- attr in_directory ;;
  f <- attr T_soil_x_file ;;
  setattr set_T_soil_x_file (d ++ f) ;;
  ty <- attr K_soil_type ;;
  f <- attr K_soil_file ;;
  u <- call (open_file ty f) ;;
  setattr set_K_soil_unit u ;;
  ty <- attr soil_x_type ;;
  f <- attr soil_x_file ;;
  u <- call (open_file ty f) ;;
  setattr set_soil_x_unit u ;;
  ty <- attr T_soil_x_type ;;
  f <- attr T_soil_x_file ;;
  u <- call (open_file ty f) ;;
  setattr set_T_soil_x_unit u.

(** [if (v != None): self.x = v].  [None != None] is false.  On an array
    the comparison is elementwise (NumPy 1.13 and later), and no item is
    [None]: the result is an array of [True] of the same shape, and [if]
    takes its truth value.  That is the truth of its one item when it has
    one, false when it is empty, and an error when it has several. *)
Definition store_if_read (set : ndarray float64 -> component -> component)
    (v : option (ndarray float64)) : M state unit :=
  match v with
  | None => ret tt
  | Some a =>
      match size (shape a) with
      | 0 => ret tt
      | 1 => setattr set a
      | _ => raise truth_value_error
      end
  end.

(** A value read that the test [v != None] lets through or holds back
    without an error: nothing, or an array of one item. *)
Definition single (v : option (ndarray float64)) : Prop :=
  forall a, v = Some a -> size (shape a) = 1.

Definition read_input_files : M state unit :=
  rti <- attr rti ;;
  u <- attr K_soil_unit ;;
  ty <- attr K_soil_type ;;
  K_soil <- call (read_next u ty rti) ;;
  store_if_read set_K_soil K_soil ;;
  u <- attr soil_x_unit ;;
  ty <- attr soil_x_type ;;
  soil_x <- call (read_next u ty rti) ;;
  store_if_read set_soil_x soil_x ;;
  u <- attr T_soil_x_unit ;;
  ty <- attr T_soil_x_type ;;
  T_soil_x <- call (read_next u ty rti) ;;
  store_if_read set_T_soil_x T_soil_x.

(** [if (ty != 'Scalar'): unit.close()]. *)
Definition close_unless_scalar (type_of : component -> string)
    (unit_of : component -> file_unit) : M state unit :=
  ty <- attr type_of ;;
  if String.eqb ty "Scalar" then ret tt
  else (u <- attr unit_of ;; call (close u)).

Definition close_input_files : M state unit :=
  close_unless_scalar K_soil_type K_soil_unit ;;
  close_unless_scalar soil_x_type soil_x_unit ;;
  close_unless_scalar T_soil_x_type T_soil_x_unit.

(** ** The rate law as the specification words it *)

(** Fourier's law on one cell: [K_soil * (T_soil_x - T_surf) / soil_x]. *)
Definition conductive_flux (K_soil T_soil_x T_surf soil_x : float64) : float64 :=
  div (mul K_soil (sub T_soil_x T_surf)) soil_x.

(** The evaporation rate on one cell: [max((Q_sum - Qe) / 2.5e9, 0)]. *)
Definition evaporation_rate (Q_sum Qe : float64) : float64 :=
  maximum (div (sub Q_sum Qe) (of_Z 2500000000)) (of_Z 0).

(** The six inputs of [update_ET_rate] are scalars or grids of shape [t]. *)
Definition conforming (t : list nat) (c : component) : Prop :=
  conforms t (Q_sum c) /\ conforms t (Qe c) /\ conforms t (T_surf c) /\
  conforms t (T_soil_x c) /\ conforms t (soil_x c) /\ conforms t (K_soil c).

(** ** Observations of the state *)

(** A computation keeps an observation of the state when the state it
    leaves, returning or raising, shows the same observation. *)
Definition keeps {A B} (obs : state -> B) (m : M state A) : Prop :=
  forall st, obs (snd (m st)) = obs st.

(** The instance with its three file inputs set aside. *)
Definition without_file_inputs (c : component) : component :=
  set_K_soil (scalar zero) (set_soil_x (scalar zero)
    (set_T_soil_x (scalar zero) c)).

End Component.

(* ===================================================================== *)
(** * An in-memory reader *)
(* ===================================================================== *)

(** An implementation of the reader interface on files held in memory, to
    run the component on examples: a file is the list of the records still
    to be read; a unit is the path it was opened on.  A ['Scalar'] input has
    no file and yields nothing, an exhausted file yields nothing. *)
Definition mem_open_file (ty path : string)
    : M (gmap string (list (ndarray float64))) string :=
  if String.eqb ty "Scalar" then ret path
  else fun fs =>
    match fs !! path with
    | Some _ => (Return path, fs)
    | None => (Raise (IOError path), fs)
    end.

Definition mem_read_next (u ty : string) (_ : unit)
    : M (gmap string (list (ndarray float64))) (option (ndarray float64)) :=
  if String.eqb ty "Scalar" then ret None
  else fun fs =>
    match fs !! u with
    | Some (r :: rest) => (Return (Some r), <[u := rest]> fs)
    | _ => (Return None, fs)
    end.

Definition mem_close (u : string)
    : M (gmap string (list (ndarray float64))) unit :=
  fun fs => (Return tt, delete u fs).

#[global] Instance MemInput : ModelInput := {|
  file_unit := string;
  rti_info := unit;
  filesystem := gmap string (list (ndarray float64));
  open_file := mem_open_file;
  read_next := mem_read_next;
  close := mem_close
|}.

(** An instance with every input the scalar [0], no files and no paths. *)
Definition blank : @component MemInput :=
  let z := scalar zero in
  mk_component z z z z z z z z z z false "" "" "" "" "Scalar" "Scalar" "Scalar"
    "" "" "" tt.

Definition start (c : @component MemInput) : @state MemInput :=
  mk_state c evap_component ∅ [].

(** Scenario A of the specification. *)
Definition scenario_A : @component MemInput :=
  set_Q_sum (scalar (of_Z 300)) (set_Qe (scalar (of_Z 50))
    (set_T_soil_x (scalar (of_Z 15)) (set_T_surf (scalar (of_Z 10))
      (set_soil_x (scalar (of_Z 1))
        (set_K_soil (scalar (of_ratio 45 100)) blank))))).

(** An energy deficit on a grid of two cells: [Q_sum = [50, 20]] against
    the scalar [Qe = 100]. *)
Definition deficit : @component MemInput :=
  set_Q_sum (mk_ndarray [2] [of_Z 50; of_Z 20])
    (set_Qe (scalar (of_Z 100)) (set_soil_x (scalar (of_Z 1)) blank)).

(** A conductivity and a temperature difference of [2^-600] each:
    [K_soil = T_soil_x = 2.0**-600], [T_surf = 0.0], [soil_x = 1.0]. *)
Definition underflow : @component MemInput :=
  set_K_soil (scalar (pow2 (-600))) (set_T_soil_x (scalar (pow2 (-600)))
    (set_soil_x (scalar (of_Z 1)) blank)).

(** A run whose conductivity is a time series with one record left, the
    two other file inputs being fixed scalars. *)
Definition reading : @state MemInput :=
  mk_state
    (set_K_soil_type "Time_Series" (set_K_soil_unit "in/K.txt" blank))
    evap_component
    {[ "in/K.txt" := [scalar (of_ratio 45 100)] ]}
    [].

(** An instance configured with a directory and three file names. *)
Definition configured : @component MemInput :=
  set_in_directory "in/" (set_K_soil_file "K.txt"
    (set_soil_x_file "x.txt" (set_T_soil_x_file "T.txt" blank))).

(* ===================================================================== *)
(** * Further examples *)
(* ===================================================================== *)

(** An energy balance that cannot be taken: [Q_sum] on two cells against
    [Qe] on three. *)
Definition mismatched : @component MemInput :=
  set_Q_sum (mk_ndarray [2] [of_Z 50; of_Z 20])
    (set_Qe (mk_ndarray [3] [of_Z 1; of_Z 2; of_Z 3])
      (set_soil_x (scalar (of_Z 1)) blank)).

(** Scenario A under a surface temperature on a grid of two cells. *)
Definition grid_surface : @component MemInput :=
  set_T_surf (mk_ndarray [2] [of_Z 10; of_Z 12]) scenario_A.

(** Inputs of different but compatible shapes: a column of two soil
    temperatures against a row of three surface temperatures, and the same
    for [Q_sum] and [Qe]. *)
Definition broadcasting : @component MemInput :=
  set_T_soil_x (mk_ndarray [2; 1] [of_Z 15; of_Z 16])
    (set_T_surf (mk_ndarray [3] [of_Z 10; of_Z 11; of_Z 12])
      (set_Q_sum (mk_ndarray [2; 1] [of_Z 300; of_Z 200])
        (set_Qe (mk_ndarray [3] [of_Z 50; of_Z 60; of_Z 70]) scenario_A))).

(** Scenario A with a NaN for [Q_sum]. *)
Definition unknown_energy : @component MemInput :=
  set_Q_sum (scalar S754_nan) scenario_A.

(** An instance configured on files, with a conductivity grid whose file
    does not exist. *)
Definition lost : @component MemInput := set_K_soil_type "Grid" configured.

(** An instance whose three inputs are grids. *)
Definition on_grids : @component MemInput :=
  set_K_soil_type "Grid" (set_soil_x_type "Grid"
    (set_T_soil_x_type "Grid" blank)).

(** A run whose conductivity is a grid of two cells with one record
    left, the two other file inputs being fixed scalars. *)
Definition reading_grid : @state MemInput :=
  mk_state
    (set_K_soil_type "Grid" (set_K_soil_unit "in/K.txt" blank))
    evap_component
    {[ "in/K.txt" := [mk_ndarray [2] [of_ratio 45 100; of_ratio 50 100]] ]}
    [].

(** A reader that refuses a unit it has not opened: as the in-memory
    reader, but reading from a path that is not a file raises. *)
Definition strict_read_next (u ty : string) (_ : unit)
    : M (gmap string (list (ndarray float64))) (option (ndarray float64)) :=
  if String.eqb ty "Scalar" then ret None
  else fun fs =>
    match fs !! u with
    | Some (r :: rest) => (Return (Some r), <[u := rest]> fs)
    | Some [] => (Return None, fs)
    | None => (Raise (IOError u), fs)
    end.

Definition StrictInput : ModelInput := {|
  file_unit := string;
  rti_info := unit;
  filesystem := gmap string (list (ndarray float64));
  open_file := mem_open_file;
  read_next := strict_read_next;
  close := mem_close
|}.

(** A run on the strict reader whose conductivity has one record left and
    whose depth is a time series that was never opened. *)
Definition half_read : @state StrictInput :=
  @mk_state StrictInput
    (@mk_component StrictInput
       (scalar zero) (scalar zero) (scalar zero) (scalar zero) (scalar zero)
       (scalar zero) (scalar zero) (scalar zero) (scalar zero) (scalar zero)
       false "" "" "" "" "Time_Series" "Time_Series" "Scalar"
       "in/K.txt" "in/x.txt" "" tt)
    evap_component
    {[ "in/K.txt" := [scalar (of_ratio 45 100)] ]}
    [].

(* ===================================================================== *)
(** * Facts on binary64 arithmetic *)
(* ===================================================================== *)

Module F64_facts.
Import F64.
Local Open Scope Z_scope.

Lemma shr_1_nonneg mrs : 0 <= shr_m mrs -> 0 <= shr_m (shr_1 mrs).
Proof.
  destruct mrs as [m r s]; simpl.
  destruct m as [|p|p]; simpl; try lia.
  - destruct p; simpl; lia.
Qed.

Lemma iter_pos_shr_1_nonneg n mrs :
  0 <= shr_m mrs -> 0 <= shr_m (SpecFloat.iter_pos shr_1 n mrs).
Proof.
  revert mrs; induction n as [n IH|n IH|]; intros mrs H; simpl.
  - apply IH, IH, shr_1_nonneg, H.
  - apply IH, IH, H.
  - apply shr_1_nonneg, H.
Qed.

Lemma shr_record_of_loc_m m l : shr_m (shr_record_of_loc m l) = m.
Proof. destruct l as [|[| |]]; reflexivity. Qed.

Lemma shr_nonneg mrs e n : 0 <= shr_m mrs -> 0 <= shr_m (fst (shr mrs e n)).
Proof.
  intros H; destruct n; simpl; auto using iter_pos_shr_1_nonneg.
Qed.

Lemma shr_fexp_nonneg p em m e l :
  0 <= m -> 0 <= shr_m (fst (shr_fexp p em m e l)).
Proof.
  intros H; unfold shr_fexp. apply shr_nonneg.
  rewrite shr_record_of_loc_m; exact H.
Qed.

Lemma round_nearest_even_nonneg m l : 0 <= m -> 0 <= round_nearest_even m l.
Proof.
  intros H; destruct l as [|[| |]]; simpl; try lia.
  destruct (Z.even m); lia.
Qed.

(** Rounding a non-negative significand gives a datum of the requested sign:
    a zero, a finite number or an infinity, never a NaN. *)
Lemma binary_round_aux_signbit s m e l :
  0 <= m -> signbit (binary_round_aux prec emax s m e l) = Some s.
Proof.
  intros H; unfold binary_round_aux.
  pose proof (shr_fexp_nonneg prec emax m e l H) as H1.
  destruct (shr_fexp prec emax m e l) as [mrs' e'] eqn:E1; simpl in H1.
  pose proof (shr_fexp_nonneg prec emax
    (round_nearest_even (shr_m mrs') (loc_of_shr_record mrs')) e' loc_Exact
    (round_nearest_even_nonneg _ _ H1)) as H2.
  destruct (shr_fexp prec emax (round_nearest_even _ _) e' loc_Exact) as [mrs'' e''].
  simpl in H2.
  destruct (shr_m mrs'') as [|q|q]; simpl; try reflexivity; try lia.
  destruct (e'' <=? emax - prec); reflexivity.
Qed.

Lemma binary_round_signbit s m e :
  signbit (binary_round prec emax s m e) = Some s.
Proof.
  unfold binary_round.
  destruct (shl_align m e _) as [mz ez].
  apply binary_round_aux_signbit; lia.
Qed.

Lemma binary_normalize_signbit m e sz :
  signbit (binary_normalize prec emax m e sz)
  = Some (match m with Z0 => sz | Zpos _ => false | Zneg _ => true end).
Proof.
  destruct m; simpl; auto using binary_round_signbit.
Qed.

(** ** Signs of products, quotients and the maximum *)

Lemma mul_signbit x y sx sy :
  isfinite x = true -> isfinite y = true ->
  signbit x = Some sx -> signbit y = Some sy ->
  signbit (mul x y) = Some (xorb sx sy).
Proof.
  intros Fx Fy Sx Sy.
  destruct x as [a|a| |a mx ex], y as [b|b| |b my ey];
    try discriminate; simpl in *;
    injection Sx as <-; injection Sy as <-; try reflexivity.
  apply binary_round_aux_signbit; lia.
Qed.

Lemma mul_zero_l x y :
  isfinite y = true -> nonzero x = false -> nonzero (mul x y) = false.
Proof.
  destruct x as [a|a| |a mx ex], y as [b|b| |b my ey]; try discriminate; reflexivity.
Qed.

Lemma mul_zero_r x y :
  isfinite x = true -> nonzero y = false -> nonzero (mul x y) = false.
Proof.
  destruct x as [a|a| |a mx ex], y as [b|b| |b my ey]; try discriminate; reflexivity.
Qed.

Lemma div_core_nonneg mx ex my ey :
  0 <= fst (fst (SFdiv_core_binary prec emax (Zpos mx) ex (Zpos my) ey)).
Proof.
  unfold SFdiv_core_binary.
  set (s := _ - _ - _).
  set (m' := match s with Z0 => _ | Zpos _ => _ | Zneg _ => _ end).
  assert (Hm : 0 <= m').
  { subst m'. destruct s; try lia. apply Z.shiftl_nonneg. lia. }
  pose proof (Z.div_pos m' (Zpos my) Hm ltac:(lia)) as Hq.
  unfold Z.div in Hq.
  destruct (Z.div_eucl m' (Zpos my)) as [q r]. exact Hq.
Qed.

(** A quotient by a finite non-zero divisor has the sign of the operands. *)
Lemma div_signbit x y sx sy :
  isfinite y = true -> nonzero y = true ->
  signbit x = Some sx -> signbit y = Some sy ->
  signbit (div x y) = Some (xorb sx sy).
Proof.
  intros Fy Ny Sx Sy.
  destruct x as [a|a| |a mx ex], y as [b|b| |b my ey];
    try discriminate; simpl in *;
    injection Sx as <-; injection Sy as <-; try reflexivity.
  pose proof (div_core_nonneg mx ex my ey) as H.
  destruct (SFdiv_core_binary prec emax (Zpos mx) ex (Zpos my) ey) as [[mz ez] lz].
  apply binary_round_aux_signbit; exact H.
Qed.

Lemma div_zero_l x y :
  isfinite y = true -> nonzero y = true -> nonzero x = false ->
  nonzero (div x y) = false.
Proof.
  destruct x as [a|a| |a mx ex], y as [b|b| |b my ey]; try discriminate; reflexivity.
Qed.

Lemma sub_isnan x y :
  isfinite x = true -> isfinite y = true -> isnan (sub x y) = false.
Proof.
  intros Fx Fy.
  destruct x as [a|a| |a mx ex], y as [b|b| |b my ey]; try discriminate.
  - destruct a, b; reflexivity.
  - reflexivity.
  - reflexivity.
  - unfold sub, SFsub.
    match goal with |- isnan (binary_normalize _ _ ?m ?e ?z) = _ =>
      pose proof (binary_normalize_signbit m e z) as H;
      destruct (binary_normalize prec emax m e z) end;
    try reflexivity; discriminate.
Qed.

Lemma signbit_isnan x : isnan x = false <-> exists s, signbit x = Some s.
Proof.
  destruct x; simpl; split; eauto; try discriminate.
  intros [s H]; discriminate.
Qed.

(** The order against zero is read off the sign. *)
Lemma leb_zero_signbit x : signbit x = Some false -> leb zero x = true.
Proof. destruct x as [s|s| |s m e]; simpl; intros [= ->]; reflexivity. Qed.

Lemma signbit_leb_zero x : signbit x = Some true -> leb x zero = true.
Proof. destruct x as [s|s| |s m e]; simpl; intros [= ->]; reflexivity. Qed.

Lemma eqb_zero_nonzero x : nonzero x = false -> eqb x zero = true.
Proof. destruct x; try discriminate; reflexivity. Qed.

Lemma leb_zero_cases x :
  leb x zero = true -> nonzero x = false \/ signbit x = Some true.
Proof.
  destruct x as [s|s| |s m e]; simpl; auto; try discriminate;
    destruct s; auto; discriminate.
Qed.

(** [maximum] against zero never goes below zero, unless it is a NaN. *)
Lemma maximum_zero_nonneg x : isnan x = false -> leb zero (maximum x zero) = true.
Proof.
  intros H. unfold maximum, geb. rewrite H, orb_false_r.
  fold (leb zero x). destruct (leb zero x) eqn:E; [exact E | reflexivity].
Qed.

Lemma maximum_zero_of_nonpos x :
  nonzero x = false \/ signbit x = Some true -> eqb (maximum x zero) zero = true.
Proof.
  intros [H|H].
  - destruct x; try discriminate; reflexivity.
  - destruct x as [s|s| |s m e]; simpl in H; try discriminate;
      injection H as ->; reflexivity.
Qed.

(** ** Subtraction against the order, on valid encodings *)

Lemma digits2_pos_size p : digits2_pos p = Pos.size p.
Proof. induction p; simpl; congruence. Qed.

Lemma pow2_pos_pred (q : positive) : 2 ^ Zpos q = 2 * 2 ^ (Zpos q - 1).
Proof. rewrite <- Z.pow_succ_r by lia. f_equal. lia. Qed.

Lemma digits2_bounds p :
  2 ^ (Zpos (digits2_pos p) - 1) <= Zpos p < 2 ^ Zpos (digits2_pos p).
Proof.
  rewrite digits2_pos_size.
  pose proof (Pos.size_gt p) as Hgt. pose proof (Pos.size_le p) as Hle.
  apply Pos2Z.pos_lt_pos in Hgt. apply Pos2Z.pos_le_pos in Hle.
  rewrite Pos2Z.inj_pow in Hgt, Hle.
  split; [|exact Hgt].
  rewrite pow2_pos_pred in Hle. change (Zpos p~0) with (2 * Zpos p) in Hle.
  apply Z.mul_le_mono_pos_l in Hle; [exact Hle | reflexivity].
Qed.

Lemma iter_xO_pow m d : Zpos (Pos.iter xO m d) = Zpos m * 2 ^ Zpos d.
Proof.
  induction d as [|d IH] using Pos.peano_ind.
  - simpl. rewrite Z.pow_1_r. lia.
  - rewrite Pos.iter_succ, Pos2Z.inj_succ, Z.pow_succ_r by lia.
    change (Zpos (Pos.iter xO m d)~0) with (2 * Zpos (Pos.iter xO m d)).
    rewrite IH. ring.
Qed.

Lemma shl_align_value m e ez :
  ez <= e -> Zpos (fst (shl_align m e ez)) = Zpos m * 2 ^ (e - ez).
Proof.
  intros H. unfold shl_align.
  destruct (ez - e) as [|d|d] eqn:E; simpl.
  - replace (e - ez) with 0 by lia. rewrite Z.pow_0_r. lia.
  - lia.
  - rewrite iter_xO_pow. f_equal. f_equal. lia.
Qed.

(** A canonical significand fills the precision above the least exponent
    and never exceeds it. *)
Lemma canonical_digits m e :
  canonical_mantissa prec emax m e = true ->
  Zpos (digits2_pos m) <= prec /\
  (emin prec emax < e -> Zpos (digits2_pos m) = prec).
Proof.
  unfold canonical_mantissa, fexp. intros H.
  apply Z.eqb_eq in H. lia.
Qed.

Lemma canonical_emin m e :
  canonical_mantissa prec emax m e = true -> emin prec emax <= e.
Proof.
  unfold canonical_mantissa, fexp. intros H. apply Z.eqb_eq in H. lia.
Qed.

(** With a strictly larger exponent, a canonical number has the larger
    magnitude. *)
Lemma canonical_exponent_lt mx ex my ey :
  canonical_mantissa prec emax mx ex = true ->
  canonical_mantissa prec emax my ey = true ->
  ey < ex -> Zpos my < Zpos mx * 2 ^ (ex - ey).
Proof.
  intros Cx Cy Hlt.
  pose proof (canonical_emin _ _ Cy) as Hmin.
  destruct (canonical_digits _ _ Cx) as [_ Hx]. specialize (Hx ltac:(lia)).
  destruct (canonical_digits _ _ Cy) as [Hy _].
  pose proof (digits2_bounds mx) as [Bx _]. pose proof (digits2_bounds my) as [_ By].
  rewrite Hx in Bx.
  assert (H1 : 2 ^ Zpos (digits2_pos my) <= 2 ^ prec)
    by (apply Z.pow_le_mono_r; lia).
  assert (H2 : 2 ^ 1 <= 2 ^ (ex - ey)) by (apply Z.pow_le_mono_r; lia).
  assert (H3 : 2 ^ prec = 2 ^ (prec - 1) * 2 ^ 1).
  { rewrite <- Z.pow_add_r by (unfold prec; lia). f_equal; lia. }
  assert (H4 : 0 < 2 ^ (prec - 1)) by (apply Z.pow_pos_nonneg; unfold prec; lia).
  nia.
Qed.

(** On valid finite numbers the IEEE order is the order of the aligned
    significands. *)
Lemma compare_aligned sx mx ex sy my ey :
  canonical_mantissa prec emax mx ex = true ->
  canonical_mantissa prec emax my ey = true ->
  SFcompare (S754_finite sx mx ex) (S754_finite sy my ey)
  = Some (aligned sx mx ex (Z.min ex ey) ?= aligned sy my ey (Z.min ex ey)).
Proof.
  intros Cx Cy. unfold aligned. simpl.
  rewrite !shl_align_value by lia.
  assert (Px : 0 < Zpos mx * 2 ^ (ex - Z.min ex ey)).
  { apply Z.mul_pos_pos; [lia|apply Z.pow_pos_nonneg; lia]. }
  assert (Py : 0 < Zpos my * 2 ^ (ey - Z.min ex ey)).
  { apply Z.mul_pos_pos; [lia|apply Z.pow_pos_nonneg; lia]. }
  f_equal.
  destruct (Z.compare_spec ex ey) as [E|L|G].
  - subst ey. rewrite Z.min_id, Z.sub_diag, Z.pow_0_r, !Z.mul_1_r in *.
    destruct sx, sy; reflexivity.
  - pose proof (canonical_exponent_lt my ey mx ex Cy Cx L) as H.
    rewrite Z.min_l in * by lia. rewrite Z.sub_diag, Z.pow_0_r, Z.mul_1_r in *.
    destruct sx, sy; unfold cond_Zopp; symmetry;
      first [apply Z.compare_gt_iff; lia | apply Z.compare_lt_iff; lia].
  - pose proof (canonical_exponent_lt mx ex my ey Cx Cy G) as H.
    rewrite Z.min_r in * by lia. rewrite Z.sub_diag, Z.pow_0_r, Z.mul_1_r in *.
    destruct sx, sy; unfold cond_Zopp; symmetry;
      first [apply Z.compare_gt_iff; lia | apply Z.compare_lt_iff; lia].
Qed.

(** Subtraction of finite numbers follows the order: the difference of
    [x > y] is not negative, that of [x < y] is not positive, and equal
    numbers differ by a zero. *)
Lemma sub_compare x y :
  valid x = true -> valid y = true ->
  isfinite x = true -> isfinite y = true ->
  match SFcompare x y with
  | Some Gt => signbit (sub x y) = Some false
  | Some Lt => signbit (sub x y) = Some true
  | Some Eq => nonzero (sub x y) = false
  | None => False
  end.
Proof.
  intros Vx Vy Fx Fy.
  destruct x as [a|a| |a mx ex], y as [b|b| |b my ey]; try discriminate.
  - destruct a, b; reflexivity.
  - destruct b; reflexivity.
  - destruct a; reflexivity.
  - unfold valid, valid_binary, bounded in Vx, Vy.
    apply andb_prop in Vx as [Cx _]. apply andb_prop in Vy as [Cy _].
    rewrite (compare_aligned a mx ex b my ey Cx Cy).
    unfold sub, SFsub. fold (aligned a mx ex (Z.min ex ey)).
    fold (aligned b my ey (Z.min ex ey)).
    set (u := aligned a mx ex (Z.min ex ey)).
    set (v := aligned b my ey (Z.min ex ey)).
    destruct (Z.compare_spec u v) as [E|L|G].
    + replace (u - v) with 0 by lia. reflexivity.
    + rewrite binary_normalize_signbit. destruct (u - v) eqn:D; try lia. reflexivity.
    + rewrite binary_normalize_signbit. destruct (u - v) eqn:D; try lia. reflexivity.
Qed.

End F64_facts.

(* ===================================================================== *)
(** * Facts on arrays *)
(* ===================================================================== *)

Module Ndarray_facts.
Import Ndarray.
Local Open Scope nat_scope.

Section ArrayFacts.
Context {A : Type}.
Implicit Types (d l : list A) (s t : list nat) (a b : ndarray A).

Lemma concat_chunks n k l :
  length l = k * n -> concat (chunks n k l) = l.
Proof.
  revert l; induction k as [|k IH]; intros l H; simpl in *.
  - destruct l; [reflexivity | discriminate].
  - rewrite IH.
    + apply firstn_skipn.
    + rewrite length_skipn. lia.
Qed.

Lemma chunks_length n k l :
  length l = k * n -> Forall (fun c => length c = n) (chunks n k l).
Proof.
  revert l; induction k as [|k IH]; intros l H; simpl in *; constructor.
  - rewrite length_firstn. lia.
  - apply IH. rewrite length_skipn. lia.
Qed.

(** Data viewed at its own shape is unchanged. *)
Lemma expand_id s d : length d = size s -> expand s s d = d.
Proof.
  revert d; induction s as [|n s IH]; intros d H; simpl in *; [reflexivity|].
  rewrite Nat.eqb_refl.
  rewrite <- (concat_chunks (size s) n d H) at 2. f_equal.
  pose proof (chunks_length (size s) n d H) as HF.
  induction HF as [|c cs Hc _ IHcs]; simpl; [reflexivity|].
  rewrite IH by exact Hc. f_equal. exact IHcs.
Qed.

Lemma concat_repeat_repeat (x : A) n m :
  concat (repeat (repeat x n) m) = repeat x (m * n).
Proof.
  induction m as [|m IH]; simpl; [reflexivity|].
  rewrite IH, repeat_app. reflexivity.
Qed.

(** A single item viewed at any shape fills it. *)
Lemma expand_ones t (x : A) :
  expand (repeat 1 (length t)) t [x] = repeat x (size t).
Proof.
  induction t as [|n t IH]; [reflexivity|].
  cbn [length repeat expand].
  destruct (Nat.eqb_spec 1 n) as [<-|Hn].
  - assert (Hs : size (repeat 1 (length t)) = 1).
    { clear. induction t; simpl; [reflexivity|]. rewrite IHt. reflexivity. }
    rewrite Hs. cbn [chunks map concat firstn].
    rewrite IH, app_nil_r. simpl. rewrite Nat.add_0_r. reflexivity.
  - rewrite IH. apply concat_repeat_repeat.
Qed.

Lemma pad_id s : pad (length s) s = s.
Proof. unfold pad. rewrite Nat.sub_diag. reflexivity. Qed.

Lemma pad_nil n : pad n [] = repeat 1 n.
Proof. unfold pad. simpl. rewrite Nat.sub_0_r, app_nil_r. reflexivity. Qed.

Lemma bdims_refl s : bdims s s = Some s.
Proof.
  induction s as [|n s IH]; simpl; [reflexivity|].
  rewrite IH, Nat.eqb_refl. reflexivity.
Qed.

Lemma bdims_ones_l t : bdims (repeat 1 (length t)) t = Some t.
Proof.
  induction t as [|n t IH]; [reflexivity|].
  cbn [length repeat bdims]. rewrite IH.
  destruct (Nat.eqb_spec 1 n) as [<-|Hn]; reflexivity.
Qed.

Lemma bdims_ones_r t : bdims t (repeat 1 (length t)) = Some t.
Proof.
  induction t as [|n t IH]; [reflexivity|].
  cbn [length repeat bdims]. rewrite IH.
  destruct (Nat.eqb_spec n 1) as [->|Hn]; reflexivity.
Qed.

Lemma zip_with_repeat_l (op : A -> A -> A) x l :
  zip_with op (repeat x (length l)) l = map (op x) l.
Proof. induction l; simpl; congruence. Qed.

Lemma zip_with_repeat_r (op : A -> A -> A) y l :
  zip_with op l (repeat y (length l)) = map (fun x => op x y) l.
Proof. induction l; simpl; congruence. Qed.

(** Two arrays of one shape combine item by item. *)
Lemma binop_same op a b :
  wf a -> wf b -> shape a = shape b ->
  binop op a b = Some (mk_ndarray (shape a) (zip_with op (data a) (data b))).
Proof.
  unfold wf, binop, broadcast_shapes. intros Wa Wb E.
  rewrite <- E, Nat.max_id, pad_id, bdims_refl, pad_id.
  rewrite !expand_id by congruence. reflexivity.
Qed.

(** A scalar combines with every item of the other operand. *)
Lemma binop_scalar_l op x b :
  wf b ->
  binop op (scalar x) b = Some (mk_ndarray (shape b) (map (op x) (data b))).
Proof.
  unfold wf, binop, broadcast_shapes. intros Wb. simpl.
  rewrite pad_nil, pad_id, bdims_ones_l, pad_nil, pad_id.
  rewrite expand_ones, expand_id by exact Wb.
  rewrite <- Wb, zip_with_repeat_l. reflexivity.
Qed.

Lemma binop_scalar_r op a y :
  wf a ->
  binop op a (scalar y)
  = Some (mk_ndarray (shape a) (map (fun x => op x y) (data a))).
Proof.
  unfold wf, binop, broadcast_shapes. intros Wa. simpl.
  rewrite Nat.max_0_r, pad_nil, pad_id, bdims_ones_r, pad_nil, pad_id.
  rewrite expand_ones, expand_id by exact Wa.
  rewrite <- Wa, zip_with_repeat_r. reflexivity.
Qed.

Lemma wf_scalar_inv a : wf a -> shape a = [] -> exists x, a = scalar x.
Proof.
  destruct a as [s d]; unfold wf; simpl. intros W ->. simpl in W.
  destruct d as [|x [|? ?]]; try discriminate. exists x; reflexivity.
Qed.

Lemma nth_zip_with (op : A -> A -> A) l1 l2 k dflt :
  k < length l1 -> k < length l2 ->
  nth k (zip_with op l1 l2) dflt = op (nth k l1 dflt) (nth k l2 dflt).
Proof.
  revert l2 k; induction l1 as [|x l1 IH]; intros [|y l2] [|k] H1 H2;
    simpl in *; try lia; [reflexivity|]. apply IH; lia.
Qed.

Lemma nth_map_lt {B} (f : A -> B) l k dA dB :
  k < length l -> nth k (map f l) dB = f (nth k l dA).
Proof.
  revert k; induction l as [|x l IH]; intros [|k] H; simpl in *; try lia;
    [reflexivity|]. apply IH; lia.
Qed.

(** On scalars and grids of one shape a binary ufunc succeeds, its result is
    again a scalar or a grid of that shape, and each item is the operation
    on the items the operands contribute there. *)
Lemma binop_conforms op t a b dflt :
  conforms t a -> conforms t b ->
  exists c, binop op a b = Some c /\ conforms t c /\
    (shape c = [] <-> shape a = [] /\ shape b = []) /\
    forall k, k < size t -> item dflt c k = op (item dflt a k) (item dflt b k).
Proof.
  intros [Wa Sa] [Wb Sb].
  destruct (shape a) as [|a1 sa] eqn:Ea.
  - destruct (wf_scalar_inv a Wa Ea) as [x ->].
    rewrite binop_scalar_l by exact Wb. eexists; split; [reflexivity|].
    split; [|split].
    + split; [unfold wf; simpl; rewrite length_map; exact Wb|exact Sb].
    + simpl. tauto.
    + intros k Hk. unfold item; simpl.
      destruct (shape b) as [|b1 sb] eqn:Eb.
      * destruct (wf_scalar_inv b Wb Eb) as [y ->]. reflexivity.
      * destruct Sb as [Sb|Sb]; [discriminate|].
        apply nth_map_lt. unfold wf in Wb. rewrite Wb, Eb, Sb. exact Hk.
  - destruct Sa as [Sa|Sa]; [discriminate|].
    destruct (shape b) as [|b1 sb] eqn:Eb.
    + destruct (wf_scalar_inv b Wb Eb) as [y ->].
      rewrite binop_scalar_r by exact Wa. eexists; split; [reflexivity|].
      split; [|split].
      * split; [unfold wf; simpl; rewrite length_map; exact Wa|].
        simpl. right. congruence.
      * simpl. rewrite Ea. split; [discriminate|intros [? _]; discriminate].
      * intros k Hk. unfold item; simpl. rewrite Ea.
        apply (nth_map_lt (fun x => op x y)). unfold wf in Wa. rewrite Wa, Ea, Sa. exact Hk.
    + destruct Sb as [Sb|Sb]; [discriminate|].
      rewrite binop_same by (try assumption; congruence).
      eexists; split; [reflexivity|]. unfold wf in Wa, Wb.
      split; [|split].
      * split; [|simpl; right; congruence].
        unfold wf; simpl. rewrite length_zip_with. rewrite Wa, Wb, Ea, Eb. 
        rewrite Sa, Sb. lia.
      * simpl. rewrite Ea. split; [discriminate|intros [? _]; discriminate].
      * intros k Hk. unfold item; simpl. rewrite Ea, Eb.
        apply nth_zip_with.
        -- rewrite Wa, Ea, Sa. exact Hk.
        -- rewrite Wb, Eb, Sb. exact Hk.
Qed.

End ArrayFacts.

End Ndarray_facts.

Module Ndarray_more.
Import Ndarray.
Local Open Scope nat_scope.

Section More.
Context {A : Type}.

Lemma Forall_chunks (P : A -> Prop) n k l :
  Forall P l -> Forall (Forall P) (chunks n k l).
Proof.
  revert l; induction k as [|k IH]; intros l H; simpl; constructor.
  - apply Forall_take, H.
  - apply IH, Forall_drop, H.
Qed.

Lemma Forall_concat (P : A -> Prop) ls :
  Forall (Forall P) ls -> Forall P (concat ls).
Proof.
  induction 1 as [|l ls Hl _ IH]; simpl; [constructor|].
  apply Forall_app; split; assumption.
Qed.

(** Broadcasting only repeats items: what holds of all items of the data
    holds of all items of its view. *)
Lemma Forall_expand (P : A -> Prop) s t d :
  Forall P d -> Forall P (expand s t d).
Proof.
  revert t d; induction s as [|n s IH]; intros [|m t] d H; simpl; try exact H.
  destruct (Nat.eqb n m).
  - apply Forall_concat.
    pose proof (Forall_chunks P (size s) n d H) as HC.
    induction HC as [|c cs Hc _ IHc]; simpl; constructor; auto.
  - apply Forall_concat.
    induction m as [|m IHm]; simpl; constructor; auto.
Qed.

Lemma Forall_zip_with (P Q R : A -> Prop) (op : A -> A -> A) l1 l2 :
  (forall x y, P x -> Q y -> R (op x y)) ->
  Forall P l1 -> Forall Q l2 -> Forall R (zip_with op l1 l2).
Proof.
  intros H H1; revert l2; induction H1 as [|x l1 Hx _ IH]; intros l2 H2;
    simpl; [constructor|].
  destruct H2 as [|y l2 Hy H2]; constructor; auto.
Qed.

(** Whatever the shapes, every item of the result of a binary ufunc is the
    operation on an item of each operand. *)
Lemma binop_Forall (P Q R : A -> Prop) op (a b c : ndarray A) :
  (forall x y, P x -> Q y -> R (op x y)) ->
  Forall P (data a) -> Forall Q (data b) ->
  binop op a b = Some c -> Forall R (data c).
Proof.
  intros H Ha Hb. unfold binop.
  destruct (broadcast_shapes (shape a) (shape b)) as [t|]; [|discriminate].
  intros [= <-]. simpl.
  eapply Forall_zip_with; eauto using Forall_expand.
Qed.

End More.
End Ndarray_more.

Module F64_order.
Import F64 F64_facts.
Local Open Scope Z_scope.

(** On valid finite numbers [x > y] is [y < x]. *)
Lemma compare_antisym x y :
  valid x = true -> valid y = true ->
  isfinite x = true -> isfinite y = true ->
  SFcompare y x = option_map CompOpp (SFcompare x y).
Proof.
  intros Vx Vy Fx Fy.
  destruct x as [a|a| |a mx ex], y as [b|b| |b my ey]; try discriminate.
  - reflexivity.
  - destruct b; reflexivity.
  - destruct a; reflexivity.
  - unfold valid, valid_binary, bounded in Vx, Vy.
    apply andb_prop in Vx as [Cx _]. apply andb_prop in Vy as [Cy _].
    rewrite (compare_aligned a mx ex b my ey Cx Cy).
    rewrite (compare_aligned b my ey a mx ex Cy Cx).
    rewrite (Z.min_comm ey ex). simpl. f_equal. apply Z.compare_antisym.
Qed.

Lemma gtb_compare x y :
  valid x = true -> valid y = true ->
  isfinite x = true -> isfinite y = true ->
  gtb x y = true -> SFcompare x y = Some Gt.
Proof.
  intros Vx Vy Fx Fy. unfold gtb, SFltb.
  rewrite (compare_antisym x y Vx Vy Fx Fy).
  destruct (SFcompare x y) as [[| |]|]; simpl; try discriminate. reflexivity.
Qed.

Lemma positive_finite x :
  isfinite x = true -> ltb zero x = true ->
  signbit x = Some false /\ nonzero x = true.
Proof.
  destruct x as [s|s| |s m e]; try discriminate. destruct s; try discriminate.
  split; reflexivity.
Qed.

Lemma mul_signbit_finite_l x y sx sy :
  isfinite x = true -> nonzero x = true ->
  signbit x = Some sx -> signbit y = Some sy ->
  signbit (mul x y) = Some (xorb sx sy).
Proof.
  intros Fx Nx Sx Sy.
  destruct x as [a|a| |a mx ex], y as [b|b| |b my ey];
    try discriminate; simpl in *;
    injection Sx as <-; injection Sy as <-; try reflexivity.
  apply binary_round_aux_signbit; lia.
Qed.

(** The conductive flux of one cell never has the sign opposite to the
    temperature difference, for a positive conductivity and depth. *)
Lemma conductive_flux_sign K Tx Ts x :
  isfinite K = true -> isfinite x = true ->
  isfinite Tx = true -> valid Tx = true ->
  isfinite Ts = true -> valid Ts = true ->
  ltb zero K = true -> ltb zero x = true ->
  (gtb Tx Ts = true -> leb zero (div (mul K (sub Tx Ts)) x) = true) /\
  (ltb Tx Ts = true -> leb (div (mul K (sub Tx Ts)) x) zero = true) /\
  (eqb Tx Ts = true -> eqb (div (mul K (sub Tx Ts)) x) zero = true).
Proof.
  intros FK Fx FTx VTx FTs VTs PK Px.
  destruct (positive_finite K FK PK) as [SK NK].
  destruct (positive_finite x Fx Px) as [Sx Nx].
  pose proof (sub_compare Tx Ts VTx VTs FTx FTs) as HS.
  split; [|split].
  - intros H. rewrite (gtb_compare Tx Ts VTx VTs FTx FTs H) in HS.
    apply leb_zero_signbit.
    apply (div_signbit _ x false false); auto.
    apply (mul_signbit_finite_l K _ false false); auto.
  - unfold ltb, SFltb. intros H.
    destruct (SFcompare Tx Ts) as [[| |]|]; try discriminate.
    apply signbit_leb_zero.
    apply (div_signbit _ x true false); auto.
    apply (mul_signbit_finite_l K _ false true); auto.
  - unfold eqb at 1, SFeqb. intros H.
    destruct (SFcompare Tx Ts) as [[| |]|]; try discriminate.
    apply eqb_zero_nonzero, div_zero_l; auto.
    apply mul_zero_r; auto.
Qed.

End F64_order.

(* ===================================================================== *)
(** * Facts on the monad *)
(* ===================================================================== *)

Section Keeps.
Context `{MI : ModelInput}.

Context {B : Type} (obs : state -> B).

Lemma keeps_ret {A} (a : A) : keeps obs (ret a).
Proof. intros st; reflexivity. Qed.

Lemma keeps_raise {A} e : keeps obs (@raise state A e).
Proof. intros st; reflexivity. Qed.

Lemma keeps_gets {A} (f : state -> A) : keeps obs (gets f).
Proof. intros st; reflexivity. Qed.

Lemma keeps_attr {A} (f : component -> A) : keeps obs (attr f).
Proof. intros st; reflexivity. Qed.

Lemma keeps_bind {A C} (m : M state A) (k : A -> M state C) :
  keeps obs m -> (forall a, keeps obs (k a)) -> keeps obs (bind m k).
Proof.
  intros Hm Hk st. unfold bind. specialize (Hm st).
  destruct (m st) as [[a|e] st']; simpl in *; [|exact Hm].
  rewrite Hk. exact Hm.
Qed.

Lemma keeps_try_except {A} (body handler : M state A) :
  keeps obs body -> keeps obs handler -> keeps obs (try_except body handler).
Proof.
  intros Hb Hh st. unfold try_except. specialize (Hb st).
  destruct (body st) as [[a|e] st']; simpl in *; [exact Hb|].
  rewrite Hh. exact Hb.
Qed.

Lemma keeps_getitem d key : keeps obs (getitem d key).
Proof. unfold getitem. destruct (d !! key); [apply keeps_ret|apply keeps_raise]. Qed.

Lemma keeps_ufunc op a b : keeps obs (ufunc op a b).
Proof. unfold ufunc. destruct (binop op a b); [apply keeps_ret|apply keeps_raise]. Qed.

Lemma keeps_setattr {A} (set : A -> component -> component) v :
  (forall st, obs (mk_state (set v (self st)) (cls st) (files st) (stdout st))
              = obs st) ->
  keeps obs (setattr set v).
Proof. intros H st. apply H. Qed.

Lemma keeps_print line :
  (forall st out, obs (mk_state (self st) (cls st) (files st) out) = obs st) ->
  keeps obs (print line).
Proof. intros H st. apply H. Qed.

Lemma keeps_call {A} (m : M filesystem A) :
  (forall st fs, obs (mk_state (self st) (cls st) fs (stdout st)) = obs st) ->
  keeps obs (call m).
Proof.
  intros H st. unfold call. destruct (m (files st)) as [r fs]. apply H.
Qed.

Lemma keeps_store_if_read set v :
  (forall x st, obs (mk_state (set x (self st)) (cls st) (files st) (stdout st))
                = obs st) ->
  keeps obs (store_if_read set v).
Proof.
  intros H. destruct v as [a|]; simpl; [|apply keeps_ret].
  destruct (Ndarray.size (Ndarray.shape a)) as [|[|n]];
    [apply keeps_ret | apply keeps_setattr, H | apply keeps_raise].
Qed.

End Keeps.

Ltac keeps_step :=
  first
    [ apply keeps_ret | apply keeps_raise | apply keeps_attr | apply keeps_gets
    | apply keeps_getitem | apply keeps_ufunc
    | apply keeps_bind; [|intro]
    | apply keeps_try_except
    | apply keeps_call; intros [[] ? ? ?] ?; reflexivity
    | apply keeps_print; intros [[] ? ? ?] ?; reflexivity
    | apply keeps_setattr; intros [[] ? ? ?]; reflexivity
    | apply keeps_store_if_read; intros ? [[] ? ? ?]; reflexivity ].

Ltac keeps_all := repeat keeps_step.

(** The fields of a state given by its fields, with [store_if_read] left
    folded. *)
Ltac read_fields :=
  cbn -[store_if_read] in *.

(* ===================================================================== *)
(** * The component *)
(* ===================================================================== *)

Import F64 Ndarray F64_facts F64_order Ndarray_facts Ndarray_more.

Section Component_facts.
Context `{MI : ModelInput}.
Implicit Types (st : state) (c : component).

(** [update_ET_rate] step by step: each ufunc either gives its array or
    raises, and the conductive flux is stored before the energy balance is
    taken. *)
Lemma update_ET_rate_run st :
  update_ET_rate st =
  let c := self st in
  match binop sub (T_soil_x c) (T_surf c) with
  | None => (Raise broadcast_error, st)
  | Some delta_T =>
  match binop mul (K_soil c) delta_T with
  | None => (Raise broadcast_error, st)
  | Some K_delta_T =>
  match binop div K_delta_T (soil_x c) with
  | None => (Raise broadcast_error, st)
  | Some qc =>
  let st1 := mk_state (set_Qc qc c) (cls st) (files st) (stdout st) in
  match binop sub (Q_sum c) (Qe c) with
  | None => (Raise broadcast_error, st1)
  | Some Qet =>
  match binop div Qet (scalar rho_w_Lv) with
  | None => (Raise broadcast_error, st1)
  | Some et =>
  match binop maximum et (scalar zero) with
  | None => (Raise broadcast_error, st1)
  | Some et_max =>
      (Return tt,
       mk_state (set_ET et_max (set_Qc qc c)) (cls st) (files st) (stdout st))
  end end end end end end.
Proof.
  unfold update_ET_rate, bind, attr, gets, setattr, modify, ufunc, ret, raise.
  cbn [self cls files stdout].
  destruct (binop sub (T_soil_x (self st)) (T_surf (self st))); [|reflexivity].
  destruct (binop mul (K_soil (self st)) _); [|reflexivity].
  destruct (binop div _ (soil_x (self st))); [|reflexivity].
  cbn [self cls files stdout].
  destruct (binop sub (Q_sum (self st)) (Qe (self st))); [|reflexivity].
  destruct (binop div _ (scalar rho_w_Lv)); [|reflexivity].
  destruct (binop maximum _ (scalar zero)); reflexivity.
Qed.


Lemma set_get_Qc_ET c : set_ET (ET c) (set_Qc (Qc c) c) = c.
Proof. destruct c; reflexivity. Qed.

(** C9.  [update_ET_rate] writes the fields [Qc] and [ET] and nothing else:
    whatever the starting state and whether the call returns or raises, the
    state it leaves is the starting state with new values for these two
    fields at most; the other fields of the instance, the tables of the
    class, the files and the printed output are the same, so the call does
    no input or output. *)
Theorem update_ET_rate_writes_only_Qc_ET st :
  exists qc et,
    snd (update_ET_rate st)
    = mk_state (set_ET et (set_Qc qc (self st))) (cls st) (files st) (stdout st)
    /\ Q_sum (self (snd (update_ET_rate st))) = Q_sum (self st)
    /\ Qe (self (snd (update_ET_rate st))) = Qe (self st)
    /\ T_surf (self (snd (update_ET_rate st))) = T_surf (self st)
    /\ T_soil_x (self (snd (update_ET_rate st))) = T_soil_x (self st)
    /\ soil_x (self (snd (update_ET_rate st))) = soil_x (self st)
    /\ K_soil (self (snd (update_ET_rate st))) = K_soil (self st)
    /\ ALL_SCALARS (self (snd (update_ET_rate st))) = ALL_SCALARS (self st)
    /\ cls (snd (update_ET_rate st)) = cls st
    /\ files (snd (update_ET_rate st)) = files st
    /\ stdout (snd (update_ET_rate st)) = stdout st.
Proof.
  assert (H : exists qc et, snd (update_ET_rate st)
    = mk_state (set_ET et (set_Qc qc (self st))) (cls st) (files st) (stdout st)).
  { rewrite update_ET_rate_run. cbv zeta.
    assert (E0 : st = mk_state (set_ET (ET (self st)) (set_Qc (Qc (self st)) (self st)))
                        (cls st) (files st) (stdout st)).
    { rewrite set_get_Qc_ET. destruct st; reflexivity. }
    destruct (binop sub (T_soil_x _) _); [|exists (Qc (self st)), (ET (self st)); exact E0].
    destruct (binop mul _ _); [|exists (Qc (self st)), (ET (self st)); exact E0].
    destruct (binop div _ (soil_x _)) as [qc|];
      [|exists (Qc (self st)), (ET (self st)); exact E0].
    assert (E1 : set_Qc qc (self st) = set_ET (ET (self st)) (set_Qc qc (self st))).
    { destruct (self st); reflexivity. }
    destruct (binop sub (Q_sum _) _);
      [|exists qc, (ET (self st)); simpl; rewrite <- E1; reflexivity].
    destruct (binop div _ (scalar _));
      [|exists qc, (ET (self st)); simpl; rewrite <- E1; reflexivity].
    destruct (binop maximum _ _) as [m|];
      [|exists qc, (ET (self st)); simpl; rewrite <- E1; reflexivity].
    exists qc, m. reflexivity. }
  destruct H as (qc & et & H). exists qc, et. rewrite H.
  split; [reflexivity|]. destruct (self st); repeat split; reflexivity.
Qed.

Lemma conforms_scalar {A} t (x : A) : conforms t (scalar x).
Proof. split; [reflexivity | left; reflexivity]. Qed.

Lemma item_scalar {A} (d x : A) k : item d (scalar x) k = x.
Proof. reflexivity. Qed.

Lemma binop_scalars {A} (op : A -> A -> A) x y :
  binop op (scalar x) (scalar y) = Some (scalar (op x y)).
Proof. rewrite binop_scalar_l by reflexivity. reflexivity. Qed.

(** On scalars and grids of one shape the update returns, and stores in each
    cell the flux and the rate of that cell. *)
Lemma update_ET_rate_conforming t st :
  conforming t (self st) ->
  exists qc et,
    update_ET_rate st
    = (Return tt,
       mk_state (set_ET et (set_Qc qc (self st))) (cls st) (files st) (stdout st))
    /\ conforms t qc /\ conforms t et
    /\ (shape qc = [] <->
        shape (K_soil (self st)) = [] /\ shape (T_soil_x (self st)) = [] /\
        shape (T_surf (self st)) = [] /\ shape (soil_x (self st)) = [])
    /\ (shape et = [] <->
        shape (Q_sum (self st)) = [] /\ shape (Qe (self st)) = [])
    /\ forall k, k < size t ->
        item zero qc k
        = conductive_flux (item zero (K_soil (self st)) k)
            (item zero (T_soil_x (self st)) k) (item zero (T_surf (self st)) k)
            (item zero (soil_x (self st)) k)
        /\ item zero et k
          = evaporation_rate (item zero (Q_sum (self st)) k)
              (item zero (Qe (self st)) k).
Proof.
  intros (HQ & HE & HTs & HTx & Hx & HK).
  destruct (binop_conforms sub t _ _ zero HTx HTs) as (dT & E1 & C1 & S1 & I1).
  destruct (binop_conforms mul t _ _ zero HK C1) as (p & E2 & C2 & S2 & I2).
  destruct (binop_conforms div t _ _ zero C2 Hx) as (qc & E3 & C3 & S3 & I3).
  destruct (binop_conforms sub t _ _ zero HQ HE) as (qet & E4 & C4 & S4 & I4).
  destruct (binop_conforms div t _ _ zero C4 (conforms_scalar t rho_w_Lv))
    as (et & E5 & C5 & S5 & I5).
  destruct (binop_conforms maximum t _ _ zero C5 (conforms_scalar t zero))
    as (m & E6 & C6 & S6 & I6).
  exists qc, m. rewrite update_ET_rate_run. cbv zeta.
  rewrite E1, E2, E3, E4, E5, E6.
  split; [reflexivity|]. split; [exact C3|]. split; [exact C6|].
  split; [|split].
  - rewrite S3, S2, S1. tauto.
  - rewrite S6, S5, S4. simpl. tauto.
  - intros k Hk. split.
    + rewrite I3, I2, I1 by exact Hk. reflexivity.
    + rewrite I6, I5, I4 by exact Hk. reflexivity.
Qed.

(** C2.  [update_ET_rate] computes the conductive flux
    [Qc = K_soil * (T_soil_x - T_surf) / soil_x], the available energy
    [Qet = Q_sum - Qe] and the rate [ET = max(Qet / 2.5e9, 0)], cell by
    cell in binary64 arithmetic, on scalars and on grids of one shape; for
    [Q_sum = 300], [Qe = 50], [T_soil_x = 15], [T_surf = 10],
    [soil_x = 1.0] and [K_soil = 0.45] it stores [Qc = 2.25] and
    [ET = 1.0e-7]. *)
Theorem update_ET_rate_computes :
  (forall t st, conforming t (self st) ->
     exists qc et,
       update_ET_rate st
       = (Return tt,
          mk_state (set_ET et (set_Qc qc (self st)))
            (cls st) (files st) (stdout st))
       /\ conforms t qc /\ conforms t et
       /\ forall k, k < size t ->
           item zero qc k
           = conductive_flux (item zero (K_soil (self st)) k)
               (item zero (T_soil_x (self st)) k)
               (item zero (T_surf (self st)) k)
               (item zero (soil_x (self st)) k)
           /\ item zero et k
             = evaporation_rate (item zero (Q_sum (self st)) k)
                 (item zero (Qe (self st)) k))
  /\ (forall st,
       Q_sum (self st) = scalar (of_Z 300) ->
       Qe (self st) = scalar (of_Z 50) ->
       T_soil_x (self st) = scalar (of_Z 15) ->
       T_surf (self st) = scalar (of_Z 10) ->
       soil_x (self st) = scalar (of_Z 1) ->
       K_soil (self st) = scalar (of_ratio 45 100) ->
       update_ET_rate st
       = (Return tt,
          mk_state
            (set_ET (scalar (of_ratio 1 10000000))
               (set_Qc (scalar (of_ratio 225 100)) (self st)))
            (cls st) (files st) (stdout st))).
Proof.
  split.
  - intros t st H.
    destruct (update_ET_rate_conforming t st H) as (qc & et & E & C1 & C2 & _ & _ & I).
    exists qc, et. auto.
  - intros st HQ HE HTx HTs Hx HK.
    rewrite update_ET_rate_run. cbv zeta.
    rewrite HQ, HE, HTx, HTs, Hx, HK, !binop_scalars.
    do 3 f_equal.
Qed.

Lemma keeps_is_scalar {B} (obs : state -> B) name : keeps obs (is_scalar name).
Proof.
  unfold is_scalar, getattr. keeps_all.
  destruct (assoc name _); keeps_all.
Qed.

Lemma keeps_close_unless_scalar {B} (obs : state -> B) ty u :
  (forall st fs, obs (mk_state (self st) (cls st) fs (stdout st)) = obs st) ->
  keeps obs (close_unless_scalar ty u).
Proof.
  intros H. unfold close_unless_scalar. keeps_all.
  destruct (String.eqb _ _); keeps_all. apply keeps_call, H.
Qed.

(** No operation other than [update_ET_rate] writes [ET]. *)
Lemma others_keep_ET :
  (forall n, keeps (fun st => ET (self st)) (get_attribute n)) /\
  keeps (fun st => ET (self st)) get_input_var_names /\
  keeps (fun st => ET (self st)) get_output_var_names /\
  (forall id, keeps (fun st => ET (self st)) (get_var_name id)) /\
  (forall id, keeps (fun st => ET (self st)) (get_var_units id)) /\
  keeps (fun st => ET (self st)) check_input_types /\
  keeps (fun st => ET (self st)) open_input_files /\
  keeps (fun st => ET (self st)) read_input_files /\
  keeps (fun st => ET (self st)) close_input_files.
Proof.
  split; [intro n; unfold get_attribute; keeps_all|].
  split; [unfold get_input_var_names; keeps_all|].
  split; [unfold get_output_var_names; keeps_all|].
  split; [intro id; unfold get_var_name; keeps_all|].
  split; [intro id; unfold get_var_units; keeps_all|].
  split.
  { unfold check_input_types.
    repeat (apply keeps_bind; [apply keeps_is_scalar|intro]). keeps_all. }
  split; [unfold open_input_files; keeps_all|].
  split; [unfold read_input_files; keeps_all|].
  unfold close_input_files.
  apply keeps_bind; [|intros _; apply keeps_bind; [|intros _]];
    apply keeps_close_unless_scalar; intros [[] ? ? ?] ?; reflexivity.
Qed.


(** What a returning call has stored in [ET]. *)
Lemma update_ET_rate_returns st st' :
  update_ET_rate st = (Return tt, st') ->
  exists Qet et,
    binop sub (Q_sum (self st)) (Qe (self st)) = Some Qet /\
    binop div Qet (scalar rho_w_Lv) = Some et /\
    binop maximum et (scalar zero) = Some (ET (self st')).
Proof.
  rewrite update_ET_rate_run. cbv zeta.
  destruct (binop sub (T_soil_x _) _); [|discriminate].
  destruct (binop mul _ _); [|discriminate].
  destruct (binop div _ (soil_x _)); [|discriminate].
  destruct (binop sub (Q_sum _) _) as [Qet|]; [|discriminate].
  destruct (binop div _ (scalar _)) as [et|] eqn:E5; [|discriminate].
  destruct (binop maximum _ _) as [m|] eqn:E6; [|discriminate].
  intros [= <-]. exists Qet, et. simpl.
  repeat split; assumption.
Qed.

Lemma div_rho_isnan x : isnan x = false -> isnan (div x rho_w_Lv) = false.
Proof.
  intros H. apply signbit_isnan in H as [s Hs]. apply signbit_isnan.
  exists (xorb s false). apply div_signbit; auto.
Qed.

(** C1.  The stored evaporation rate is never negative: when the items of
    [Q_sum] and [Qe] are finite, a call of [update_ET_rate] that returns
    leaves every item of [ET] at or above zero, whatever the shapes; on
    scalars and grids of one shape the call does return.  No other
    operation of the component writes [ET], so each of them leaves it as it
    is. *)
Theorem ET_never_negative :
  (forall st st',
     Forall (fun x => isfinite x = true) (data (Q_sum (self st))) ->
     Forall (fun x => isfinite x = true) (data (Qe (self st))) ->
     update_ET_rate st = (Return tt, st') ->
     Forall (fun x => leb zero x = true) (data (ET (self st'))))
  /\ (forall t st, conforming t (self st) ->
       exists st', update_ET_rate st = (Return tt, st'))
  /\ (forall n, keeps (fun st => ET (self st)) (get_attribute n))
  /\ keeps (fun st => ET (self st)) get_input_var_names
  /\ keeps (fun st => ET (self st)) get_output_var_names
  /\ (forall id, keeps (fun st => ET (self st)) (get_var_name id))
  /\ (forall id, keeps (fun st => ET (self st)) (get_var_units id))
  /\ keeps (fun st => ET (self st)) check_input_types
  /\ keeps (fun st => ET (self st)) open_input_files
  /\ keeps (fun st => ET (self st)) read_input_files
  /\ keeps (fun st => ET (self st)) close_input_files.
Proof.
  split; [|split; [|exact others_keep_ET]].
  - intros st st' HQ HE Hrun.
    destruct (update_ET_rate_returns st st' Hrun) as (Qet & et & E1 & E2 & E3).
    assert (H1 : Forall (fun x => isnan x = false) (data Qet)).
    { eapply (binop_Forall _ _ _ sub); [|exact HQ|exact HE|exact E1].
      intros x y; apply sub_isnan. }
    assert (H2 : Forall (fun x => isnan x = false) (data et)).
    { eapply (binop_Forall _ (fun y => y = rho_w_Lv) _ div); [|exact H1| |exact E2].
      - intros x y Hx ->. apply div_rho_isnan, Hx.
      - repeat constructor. }
    eapply (binop_Forall _ (fun y => y = zero) _ maximum); [|exact H2| |exact E3].
    + intros x y Hx ->. apply maximum_zero_nonneg, Hx.
    + repeat constructor.
  - intros t st H.
    destruct (update_ET_rate_conforming t st H) as (qc & et & E & _).
    eexists; exact E.
Qed.

(** C3.  Where the difference [Q_sum - Qe] is zero or negative the stored
    rate is zero: if every item of the array [Q_sum - Qe] is at most zero,
    a call of [update_ET_rate] that returns leaves every item of [ET] equal
    to zero, whatever [K_soil], [T_soil_x], [T_surf] and [soil_x] hold; on
    scalars and grids of one shape the call does return. *)
Theorem ET_zero_without_energy :
  forall st Qet,
    binop sub (Q_sum (self st)) (Qe (self st)) = Some Qet ->
    Forall (fun q => leb q zero = true) (data Qet) ->
    (forall st', update_ET_rate st = (Return tt, st') ->
       shape (ET (self st')) = shape Qet /\
       Forall (fun x => eqb x zero = true) (data (ET (self st'))))
    /\ (forall t, conforming t (self st) ->
         exists st', update_ET_rate st = (Return tt, st')).
Proof.
  intros st Qet E1 Hneg. split.
  - intros st' Hrun.
    destruct (update_ET_rate_returns st st' Hrun) as (Qet' & et & E1' & E2 & E3).
    rewrite E1 in E1'. injection E1' as <-.
    assert (H2 : Forall (fun x => nonzero x = false \/ signbit x = Some true)
                   (data et)).
    { eapply (binop_Forall _ (fun y => y = rho_w_Lv) _ div);
        [|exact Hneg| |exact E2].
      - intros x y Hx ->. apply leb_zero_cases in Hx as [Hx|Hx].
        + left. apply div_zero_l; auto.
        + right. apply (div_signbit x rho_w_Lv true false); auto.
      - repeat constructor. }
    split.
    + unfold binop in E2, E3.
      destruct (broadcast_shapes (shape Qet) _) as [t1|] eqn:B1; [|discriminate].
      injection E2 as <-. simpl in E3.
      destruct (broadcast_shapes t1 _) as [t2|] eqn:B2; [|discriminate].
      injection E3 as <-. simpl.
      unfold broadcast_shapes in B1, B2. simpl in B1, B2.
      rewrite Nat.max_0_r, pad_nil, pad_id, bdims_ones_r in B1, B2.
      congruence.
    + eapply (binop_Forall _ (fun y => y = zero) _ maximum);
        [|exact H2| |exact E3].
      * intros x y Hx ->. apply maximum_zero_of_nonpos, Hx.
      * repeat constructor.
  - intros t H.
    destruct (update_ET_rate_conforming t st H) as (qc & et & E & _).
    eexists; exact E.
Qed.

(** C4, as the code has it.  For finite inputs with [K_soil > 0] and
    [soil_x > 0] the stored [Qc] never has the sign opposite to
    [T_soil_x - T_surf]: it is at least zero where [T_soil_x > T_surf], at
    most zero where [T_soil_x < T_surf], and zero where they are equal, cell
    by cell. *)
Theorem Qc_sign_follows_temperatures :
  forall t st k,
    conforming t (self st) -> k < size t ->
    isfinite (item zero (K_soil (self st)) k) = true ->
    isfinite (item zero (soil_x (self st)) k) = true ->
    isfinite (item zero (T_soil_x (self st)) k) = true ->
    valid (item zero (T_soil_x (self st)) k) = true ->
    isfinite (item zero (T_surf (self st)) k) = true ->
    valid (item zero (T_surf (self st)) k) = true ->
    ltb zero (item zero (K_soil (self st)) k) = true ->
    ltb zero (item zero (soil_x (self st)) k) = true ->
    exists st',
      update_ET_rate st = (Return tt, st') /\
      (gtb (item zero (T_soil_x (self st)) k) (item zero (T_surf (self st)) k)
       = true -> leb zero (item zero (Qc (self st')) k) = true) /\
      (ltb (item zero (T_soil_x (self st)) k) (item zero (T_surf (self st)) k)
       = true -> leb (item zero (Qc (self st')) k) zero = true) /\
      (eqb (item zero (T_soil_x (self st)) k) (item zero (T_surf (self st)) k)
       = true -> eqb (item zero (Qc (self st')) k) zero = true).
Proof.
  intros t st k Hc Hk FK Fx FTx VTx FTs VTs PK Px.
  destruct (update_ET_rate_conforming t st Hc) as (qc & et & E & _ & _ & _ & _ & I).
  eexists; split; [exact E|].
  destruct (I k Hk) as [Iq _].
  assert (EQ : Qc (self (mk_state (set_ET et (set_Qc qc (self st)))
                           (cls st) (files st) (stdout st))) = qc).
  { simpl. destruct (self st); reflexivity. }
  rewrite EQ, Iq. unfold conductive_flux.
  apply conductive_flux_sign; assumption.
Qed.

Lemma check_input_types_run st :
  check_input_types st =
  (Return tt,
   mk_state
     (set_ALL_SCALARS
        (np_all [ Nat.eqb (ndim (T_soil_x (self st))) 0;
                  Nat.eqb (ndim (soil_x (self st))) 0;
                  Nat.eqb (ndim (K_soil (self st))) 0;
                  Nat.eqb (ndim (h_snow (self st))) 0;
                  Nat.eqb (ndim (Q_sum (self st))) 0;
                  Nat.eqb (ndim (Qe (self st))) 0;
                  Nat.eqb (ndim (T_air (self st))) 0 ])
        (self st))
     (cls st) (files st) (stdout st)).
Proof. reflexivity. Qed.

(** C5.  [check_input_types] sets [ALL_SCALARS] to true exactly when each
    of the seven inputs [T_soil_x], [soil_x], [K_soil], [h_snow], [Q_sum],
    [Qe] and [T_air] is a scalar, and to false as soon as one of them is a
    grid; it changes nothing else. *)
Theorem check_input_types_flag st :
  exists b,
    check_input_types st
    = (Return tt,
       mk_state (set_ALL_SCALARS b (self st)) (cls st) (files st) (stdout st))
    /\ ALL_SCALARS (self (snd (check_input_types st))) = b
    /\ (b = true <->
        ndim (T_soil_x (self st)) = 0 /\ ndim (soil_x (self st)) = 0 /\
        ndim (K_soil (self st)) = 0 /\ ndim (h_snow (self st)) = 0 /\
        ndim (Q_sum (self st)) = 0 /\ ndim (Qe (self st)) = 0 /\
        ndim (T_air (self st)) = 0)
    /\ (b = false <->
        ndim (T_soil_x (self st)) <> 0 \/ ndim (soil_x (self st)) <> 0 \/
        ndim (K_soil (self st)) <> 0 \/ ndim (h_snow (self st)) <> 0 \/
        ndim (Q_sum (self st)) <> 0 \/ ndim (Qe (self st)) <> 0 \/
        ndim (T_air (self st)) <> 0).
Proof.
  rewrite check_input_types_run. eexists. split; [reflexivity|].
  split; [destruct (self st); reflexivity|].
  unfold np_all; cbn [forallb].
  destruct (Nat.eqb_spec (ndim (T_soil_x (self st))) 0);
  destruct (Nat.eqb_spec (ndim (soil_x (self st))) 0);
  destruct (Nat.eqb_spec (ndim (K_soil (self st))) 0);
  destruct (Nat.eqb_spec (ndim (h_snow (self st))) 0);
  destruct (Nat.eqb_spec (ndim (Q_sum (self st))) 0);
  destruct (Nat.eqb_spec (ndim (Qe (self st))) 0);
  destruct (Nat.eqb_spec (ndim (T_air (self st))) 0);
  cbn [andb]; split; split; intros; try discriminate; try tauto.
Qed.

(** C6.  With the tables of the class as they are written, every
    identifier of the input list and of the output list has a short name
    and a unit, so [get_var_name] and [get_var_units] return on it; the
    unit of ["land_water__evaporation_rate"] is ["m s-1"]. *)
Theorem listed_identifiers_resolve :
  forall st, cls st = evap_component ->
    (forall id,
       In id (_input_var_names (cls st) ++ _output_var_names (cls st)) ->
       (exists n, _var_name_map (cls st) !! id = Some n /\
                  get_var_name id st = (Return n, st)) /\
       (exists u, _var_units_map (cls st) !! id = Some u /\
                  get_var_units id st = (Return u, st)))
    /\ get_var_units "land_water__evaporation_rate" st = (Return "m s-1", st).
Proof.
  intros st Hcls.
  unfold get_var_name, get_var_units, bind, gets, getitem.
  rewrite Hcls. split; [|reflexivity].
  intros id Hin. simpl in Hin.
  repeat (destruct Hin as [<-|Hin];
          [split; eexists; split; reflexivity|]).
  destruct Hin.
Qed.

(** C7.  A name that is not in the attribute table once lower-cased does
    not make [get_attribute] raise: the miss is printed and nothing is
    returned.  An identifier that is not in the name map, or not in the unit
    map, makes [get_var_name], or [get_var_units], raise a [KeyError]. *)
Theorem lookup_misses :
  (forall st att_name,
     _att_map (cls st) !! lower att_name = None ->
     get_attribute att_name st
     = (Return None,
        mk_state (self st) (cls st) (files st)
          (stdout st ++
           [ "###################################################";
             " ERROR: Could not find attribute: " ++ att_name;
             "###################################################";
             " " ])))
  /\ (forall st id,
       _var_name_map (cls st) !! id = None ->
       get_var_name id st = (Raise (KeyError id), st))
  /\ (forall st id,
       _var_units_map (cls st) !! id = None ->
       get_var_units id st = (Raise (KeyError id), st)).
Proof.
  split; [|split].
  - intros st n H.
    unfold get_attribute, try_except, bind, gets, getitem, print, modify, ret.
    rewrite H. simpl. rewrite <- !app_assoc. reflexivity.
  - intros st id H. unfold get_var_name, bind, gets, getitem. rewrite H.
    reflexivity.
  - intros st id H. unfold get_var_units, bind, gets, getitem. rewrite H.
    reflexivity.
Qed.

(** The cases of [if (v != None): self.x = v]. *)
Lemma store_if_read_single set r st :
  single r ->
  store_if_read set r st
  = match r with
    | Some a =>
        (Return tt,
         mk_state (set a (self st)) (cls st) (files st) (stdout st))
    | None => (Return tt, st)
    end.
Proof.
  intros H. destruct r as [a|]; [|reflexivity].
  unfold store_if_read. rewrite (H a eq_refl). reflexivity.
Qed.

Lemma store_if_read_grid set a st :
  1 < size (shape a) ->
  store_if_read set (Some a) st = (Raise truth_value_error, st).
Proof.
  intros H. unfold store_if_read.
  destruct (size (shape a)) as [|[|n]]; [lia|lia|reflexivity].
Qed.

(** C8, as the code has it on grids.  [read_input_files] reads [K_soil],
    [soil_x] and [T_soil_x] in this order and tests each value with
    [v != None].  When a read yields an array of more than one item the
    test has no truth value: the call raises [ValueError], the field keeps
    its previous value instead of the value read, and the inputs that come
    after it are not read.  This holds for each of the three inputs, the
    earlier ones having yielded nothing or an array of one item. *)
Theorem read_input_files_raises_on_grid :
  (forall st a fs1,
     read_next (K_soil_unit (self st)) (K_soil_type (self st)) (rti (self st))
       (files st) = (Return (Some a), fs1) ->
     1 < size (shape a) ->
     read_input_files st
     = (Raise truth_value_error,
        mk_state (self st) (cls st) fs1 (stdout st))
     /\ K_soil (self (snd (read_input_files st))) = K_soil (self st))
  /\ (forall st r1 a fs1 fs2,
       read_next (K_soil_unit (self st)) (K_soil_type (self st))
         (rti (self st)) (files st) = (Return r1, fs1) ->
       single r1 ->
       read_next (soil_x_unit (self st)) (soil_x_type (self st))
         (rti (self st)) fs1 = (Return (Some a), fs2) ->
       1 < size (shape a) ->
       read_input_files st
       = (Raise truth_value_error,
          mk_state (set_K_soil (default (K_soil (self st)) r1) (self st))
            (cls st) fs2 (stdout st))
       /\ soil_x (self (snd (read_input_files st))) = soil_x (self st))
  /\ (forall st r1 r2 a fs1 fs2 fs3,
       read_next (K_soil_unit (self st)) (K_soil_type (self st))
         (rti (self st)) (files st) = (Return r1, fs1) ->
       single r1 ->
       read_next (soil_x_unit (self st)) (soil_x_type (self st))
         (rti (self st)) fs1 = (Return r2, fs2) ->
       single r2 ->
       read_next (T_soil_x_unit (self st)) (T_soil_x_type (self st))
         (rti (self st)) fs2 = (Return (Some a), fs3) ->
       1 < size (shape a) ->
       read_input_files st
       = (Raise truth_value_error,
          mk_state
            (set_soil_x (default (soil_x (self st)) r2)
               (set_K_soil (default (K_soil (self st)) r1) (self st)))
            (cls st) fs3 (stdout st))
       /\ T_soil_x (self (snd (read_input_files st))) = T_soil_x (self st)).
Proof.
  split; [|split].
  - intros st a fs1 H1 Ha.
    assert (E : read_input_files st
      = (Raise truth_value_error,
         mk_state (self st) (cls st) fs1 (stdout st))).
    { unfold read_input_files, bind, attr, gets, call.
      destruct st as [c k fs out]. read_fields.
      rewrite H1. read_fields. rewrite (store_if_read_grid _ _ _ Ha).
      reflexivity. }
    rewrite E. split; reflexivity.
  - intros st r1 a fs1 fs2 H1 S1 H2 Ha.
    assert (E : read_input_files st
      = (Raise truth_value_error,
         mk_state (set_K_soil (default (K_soil (self st)) r1) (self st))
           (cls st) fs2 (stdout st))).
    { unfold read_input_files, bind, attr, gets, call.
      destruct st as [c k fs out]. read_fields.
      rewrite H1. read_fields. rewrite (store_if_read_single _ _ _ S1).
      destruct c as [q1 q2 q3 q4 q5 q6 q7 q8 q9 q10 b d f1 f2 f3 t1 t2 t3
                        u1 u2 u3 g].
      destruct r1 as [v1|]; read_fields; rewrite H2; read_fields;
        rewrite (store_if_read_grid _ _ _ Ha); reflexivity. }
    rewrite E. split; [reflexivity|]. cbn [snd self].
    destruct (self st); reflexivity.
  - intros st r1 r2 a fs1 fs2 fs3 H1 S1 H2 S2 H3 Ha.
    assert (E : read_input_files st
      = (Raise truth_value_error,
         mk_state
           (set_soil_x (default (soil_x (self st)) r2)
              (set_K_soil (default (K_soil (self st)) r1) (self st)))
           (cls st) fs3 (stdout st))).
    { unfold read_input_files, bind, attr, gets, call.
      destruct st as [c k fs out]. read_fields.
      rewrite H1. read_fields. rewrite (store_if_read_single _ _ _ S1).
      destruct c as [q1 q2 q3 q4 q5 q6 q7 q8 q9 q10 b d f1 f2 f3 t1 t2 t3
                        u1 u2 u3 g].
      destruct r1 as [v1|]; read_fields; rewrite H2; read_fields;
        rewrite (store_if_read_single _ _ _ S2);
        destruct r2 as [v2|]; read_fields; rewrite H3; read_fields;
        rewrite (store_if_read_grid _ _ _ Ha); reflexivity. }
    rewrite E. split; [reflexivity|]. cbn [snd self].
    destruct (self st); reflexivity.
Qed.

Lemma length_append (s1 s2 : string) :
  String.length (s1 ++ s2) = String.length s1 + String.length s2.
Proof. induction s1 as [|a s1 IH]; [reflexivity|]. simpl. rewrite IH. reflexivity. Qed.

Lemma append_twice_neq (d o : string) : d <> "" -> d ++ d ++ o <> d ++ o.
Proof.
  intros Hd E. apply (f_equal String.length) in E.
  rewrite !length_append in E. destruct d; [congruence|simpl in E; lia].
Qed.

(** After [open_input_files] each path is the directory followed by the
    previous path, and the directory is the same, whether the files could
    be opened or not. *)
Lemma open_input_files_paths st :
  let st' := snd (open_input_files st) in
  in_directory (self st') = in_directory (self st) /\
  K_soil_file (self st') = in_directory (self st) ++ K_soil_file (self st) /\
  soil_x_file (self st') = in_directory (self st) ++ soil_x_file (self st) /\
  T_soil_x_file (self st')
  = in_directory (self st) ++ T_soil_x_file (self st).
Proof.
  unfold open_input_files, bind, attr, gets, call, setattr, modify.
  destruct st as [c k fs out].
  destruct c as [q1 q2 q3 q4 q5 q6 q7 q8 q9 q10 b d f1 f2 f3 t1 t2 t3
                    u1 u2 u3 g].
  cbn.
  destruct (open_file t1 (d ++ f1) fs) as [[v1|e1] fs1]; cbn; [|auto].
  destruct (open_file t2 (d ++ f2) fs1) as [[v2|e2] fs2]; cbn; [|auto].
  destruct (open_file t3 (d ++ f3) fs2) as [[v3|e3] fs3]; cbn; auto.
Qed.

(** C10.  [open_input_files] replaces each of [K_soil_file],
    [soil_x_file] and [T_soil_x_file] by the directory followed by its
    previous value, so a second call prefixes the directory again: after two
    calls each path is the directory, the directory and the original path,
    which differs from what one call leaves whenever the directory is not
    empty.  The operation is not idempotent on these fields. *)
Theorem open_input_files_twice :
  forall st,
    let d := in_directory (self st) in
    let st1 := snd (open_input_files st) in
    let st2 := snd (open_input_files st1) in
    (K_soil_file (self st1) = d ++ K_soil_file (self st) /\
     soil_x_file (self st1) = d ++ soil_x_file (self st) /\
     T_soil_x_file (self st1) = d ++ T_soil_x_file (self st))
    /\ (K_soil_file (self st2) = d ++ d ++ K_soil_file (self st) /\
        soil_x_file (self st2) = d ++ d ++ soil_x_file (self st) /\
        T_soil_x_file (self st2) = d ++ d ++ T_soil_x_file (self st))
    /\ (d <> "" ->
        K_soil_file (self st2) <> K_soil_file (self st1) /\
        soil_x_file (self st2) <> soil_x_file (self st1) /\
        T_soil_x_file (self st2) <> T_soil_x_file (self st1)).
Proof.
  intros st d st1 st2.
  destruct (open_input_files_paths st) as (D1 & K1 & X1 & T1).
  destruct (open_input_files_paths (snd (open_input_files st)))
    as (D2 & K2 & X2 & T2).
  fold st1 in D1, K1, X1, T1, D2, K2, X2, T2. fold st2 in D2, K2, X2, T2.
  fold d in D1, K1, X1, T1. rewrite D1 in K2, X2, T2.
  split; [auto|].
  rewrite K1 in K2. rewrite X1 in X2. rewrite T1 in T2.
  split; [auto|].
  intros Hd. rewrite K2, X2, T2, K1, X1, T1.
  repeat split; apply append_twice_neq, Hd.
Qed.

End Component_facts.

(* ===================================================================== *)
(** * The theorems on examples *)
(* ===================================================================== *)

Lemma conforming_scenario_A : conforming [] scenario_A.
Proof. repeat split; left; reflexivity. Qed.

Lemma conforming_deficit : conforming [2] deficit.
Proof. repeat split; first [left; reflexivity | right; reflexivity]. Qed.

Lemma conforming_underflow : conforming [] underflow.
Proof. repeat split; left; reflexivity. Qed.

(** Scenario A: finite inputs, a returning call, a rate at or above zero. *)
Lemma ET_never_negative_witness :
  Forall (fun x => isfinite x = true) (data (Q_sum scenario_A)) /\
  Forall (fun x => isfinite x = true) (data (Qe scenario_A)) /\
  Forall (fun x => leb zero x = true)
    (data (ET (self (snd (update_ET_rate (start scenario_A)))))).
Proof.
  assert (HQ : Forall (fun x => isfinite x = true) (data (Q_sum scenario_A)))
    by (repeat constructor).
  assert (HE : Forall (fun x => isfinite x = true) (data (Qe scenario_A)))
    by (repeat constructor).
  split; [exact HQ|]. split; [exact HE|].
  exact (proj1 ET_never_negative (start scenario_A)
           (snd (update_ET_rate (start scenario_A))) HQ HE eq_refl).
Defined.

(** Scenario A stores [Qc = 2.25] and [ET = 1.0e-7]. *)
Lemma update_ET_rate_computes_witness :
  Qc (self (snd (update_ET_rate (start scenario_A)))) = scalar (of_ratio 225 100)
  /\ ET (self (snd (update_ET_rate (start scenario_A))))
     = scalar (of_ratio 1 10000000).
Proof.
  rewrite (proj2 update_ET_rate_computes (start scenario_A)
             eq_refl eq_refl eq_refl eq_refl eq_refl eq_refl).
  split; reflexivity.
Defined.

(** The deficit on a grid: both cells of [ET] are zero. *)
Lemma ET_zero_without_energy_witness :
  Forall (fun x => eqb x zero = true)
    (data (ET (self (snd (update_ET_rate (start deficit)))))).
Proof.
  refine (proj2 (proj1 (ET_zero_without_energy (start deficit)
            (mk_ndarray [2] [sub (of_Z 50) (of_Z 100); sub (of_Z 20) (of_Z 100)])
            eq_refl _) (snd (update_ET_rate (start deficit))) eq_refl)).
  repeat constructor.
Defined.

(** Scenario A: the subsurface is warmer, the flux is not negative. *)
Lemma Qc_sign_follows_temperatures_witness :
  gtb (of_Z 15) (of_Z 10) = true /\
  leb zero (item zero (Qc (self (snd (update_ET_rate (start scenario_A))))) 0)
  = true.
Proof.
  split; [reflexivity|].
  destruct (Qc_sign_follows_temperatures [] (start scenario_A) 0
              conforming_scenario_A (Nat.lt_0_succ 0)
              eq_refl eq_refl eq_refl eq_refl eq_refl eq_refl eq_refl eq_refl)
    as (st' & E & Hgt & _ & _).
  rewrite E. exact (Hgt eq_refl).
Defined.

(** C4 at its failing input: [K_soil = T_soil_x = 2.0**-600],
    [T_surf = 0.0], [soil_x = 1.0].  The conductivity and the depth are
    positive and [T_soil_x > T_surf], yet the product underflows and the
    stored flux is zero, which is not positive. *)
Lemma Qc_sign_counterexample :
  ltb zero (item zero (K_soil underflow) 0) = true /\
  ltb zero (item zero (soil_x underflow) 0) = true /\
  gtb (item zero (T_soil_x underflow) 0) (item zero (T_surf underflow) 0)
  = true /\
  update_ET_rate (start underflow)
  = (Return tt, start (set_ET (scalar zero) (set_Qc (scalar zero) underflow)))
  /\ gtb (item zero (Qc (self (snd (update_ET_rate (start underflow))))) 0)
       zero = false.
Proof. repeat split; reflexivity. Qed.

(** The listed identifier of the conductive flux resolves. *)
Lemma listed_identifiers_resolve_witness :
  get_var_name "soil_surface__conduction_energy_flux" (start blank)
  = (Return "Qc", start blank) /\
  get_var_units "soil_surface__conduction_energy_flux" (start blank)
  = (Return "W m-2", start blank).
Proof.
  destruct (proj1 (listed_identifiers_resolve (start blank) eq_refl)
              "soil_surface__conduction_energy_flux")
    as [(n & Hn & En) (u & Hu & Eu)].
  { simpl. tauto. }
  rewrite En, Eu. injection Hn as <-. injection Hu as <-. split; reflexivity.
Defined.

(** An unknown attribute is reported, an unknown identifier raises. *)
Lemma lookup_misses_witness :
  fst (get_attribute "Colour" (start blank)) = Return None /\
  stdout (snd (get_attribute "Colour" (start blank)))
  = [ "###################################################";
      " ERROR: Could not find attribute: Colour";
      "###################################################";
      " " ] /\
  get_var_name "soil_surface__temperature" (start blank)
  = (Raise (KeyError "soil_surface__temperature"), start blank) /\
  get_var_units "soil_surface__temperature" (start blank)
  = (Raise (KeyError "soil_surface__temperature"), start blank).
Proof.
  destruct lookup_misses as (H1 & H2 & H3).
  rewrite (H1 (start blank) "Colour" eq_refl).
  rewrite (H2 (start blank) "soil_surface__temperature" eq_refl).
  rewrite (H3 (start blank) "soil_surface__temperature" eq_refl).
  repeat split; reflexivity.
Defined.

(** A grid of two cells is read for the conductivity: the call raises and
    the conductivity is the one of before, not the grid. *)
Lemma read_input_files_raises_on_grid_witness :
  read_input_files reading_grid
  = (Raise truth_value_error,
     mk_state (self reading_grid) evap_component
       (<["in/K.txt" := []]> (files reading_grid)) [])
  /\ K_soil (self (snd (read_input_files reading_grid))) = scalar zero.
Proof.
  exact (proj1 read_input_files_raises_on_grid reading_grid
           (mk_ndarray [2] [of_ratio 45 100; of_ratio 50 100])
           (<["in/K.txt" := []]> (files reading_grid))
           eq_refl (le_n 2)).
Defined.

(** Two calls prefix the directory twice. *)
Lemma open_input_files_twice_witness :
  in_directory configured <> "" /\
  K_soil_file (self (snd (open_input_files (snd (open_input_files
    (start configured)))))) = "in/in/K.txt" /\
  K_soil_file (self (snd (open_input_files (snd (open_input_files
    (start configured))))))
  <> K_soil_file (self (snd (open_input_files (start configured)))).
Proof.
  assert (Hd : in_directory configured <> "") by discriminate.
  destruct (open_input_files_twice (start configured))
    as (_ & (HK & _ & _) & Hne).
  split; [exact Hd|]. split; [rewrite HK; reflexivity|].
  exact (proj1 (Hne Hd)).
Defined.

(* ===================================================================== *)
(** * Further properties of the evaporation rate *)
(* ===================================================================== *)

(** The fields that [update_ET_rate] and [check_input_types] read and
    write, on a state given by its fields. *)
Ltac update_fields :=
  cbv zeta;
  cbn [snd self cls files stdout Q_sum Qe T_surf T_soil_x soil_x K_soil
       set_Qc set_ET set_ALL_SCALARS].

Section Update_more.
Context `{MI : ModelInput}.
Implicit Types (st : state) (c : component).

(** X1.  [update_ET_rate] is idempotent: it reads no field that it writes,
    so a second call ends as the first did, with the same outcome and the
    same state. *)
Theorem update_ET_rate_idempotent st :
  update_ET_rate (snd (update_ET_rate st)) = update_ET_rate st.
Proof.
  destruct st as [c k fs out].
  destruct c as [q1 q2 q3 q4 q5 q6 q7 q8 q9 q10 b d f1 f2 f3 t1 t2 t3
                    u1 u2 u3 g].
  rewrite (update_ET_rate_run (mk_state _ k fs out)). update_fields.
  destruct (binop sub q6 q3) as [dT|] eqn:E1; update_fields;
    [|rewrite update_ET_rate_run; update_fields; rewrite E1; reflexivity].
  destruct (binop mul q8 dT) as [p|] eqn:E2; update_fields;
    [|rewrite update_ET_rate_run; update_fields; rewrite E1, E2; reflexivity].
  destruct (binop div p q7) as [qc|] eqn:E3; update_fields;
    [|rewrite update_ET_rate_run; update_fields; rewrite E1, E2, E3;
      reflexivity].
  destruct (binop sub q1 q2) as [qet|] eqn:E4; update_fields;
    [|rewrite update_ET_rate_run; update_fields; rewrite E1, E2, E3, E4;
      reflexivity].
  destruct (binop div qet (scalar rho_w_Lv)) as [et|] eqn:E5; update_fields;
    [|rewrite update_ET_rate_run; update_fields; rewrite E1, E2, E3, E4, E5;
      reflexivity].
  destruct (binop maximum et (scalar zero)) as [m|] eqn:E6; update_fields;
    rewrite update_ET_rate_run; update_fields;
    rewrite E1, E2, E3, E4, E5, E6; reflexivity.
Qed.

(** X2.  The conductive flux is stored before the energy balance is taken:
    when the soil inputs combine but [Q_sum] and [Qe] have shapes that do
    not, the call raises NumPy's broadcasting error with the new [Qc]
    already stored and [ET] left as it was. *)
Theorem update_ET_rate_partial_failure st delta_T K_delta_T qc :
  binop sub (T_soil_x (self st)) (T_surf (self st)) = Some delta_T ->
  binop mul (K_soil (self st)) delta_T = Some K_delta_T ->
  binop div K_delta_T (soil_x (self st)) = Some qc ->
  broadcast_shapes (shape (Q_sum (self st))) (shape (Qe (self st))) = None ->
  update_ET_rate st
  = (Raise broadcast_error,
     mk_state (set_Qc qc (self st)) (cls st) (files st) (stdout st))
  /\ Qc (self (snd (update_ET_rate st))) = qc
  /\ ET (self (snd (update_ET_rate st))) = ET (self st).
Proof.
  intros E1 E2 E3 E4.
  assert (E : binop sub (Q_sum (self st)) (Qe (self st)) = None)
    by (unfold binop; rewrite E4; reflexivity).
  rewrite update_ET_rate_run. cbv zeta. rewrite E1, E2, E3, E.
  split; [reflexivity|]. cbn [snd self]. destruct (self st); split; reflexivity.
Qed.

(** X3.  The energy balance leaves the conductive flux out: [ET] is a
    function of [Q_sum] and [Qe] alone.  Two states that agree on these two
    fields and on which the call returns get the same [ET], whatever their
    soil inputs and surface temperatures are. *)
Theorem ET_depends_on_Q_sum_and_Qe_only st1 st2 st1' st2' :
  Q_sum (self st1) = Q_sum (self st2) ->
  Qe (self st1) = Qe (self st2) ->
  update_ET_rate st1 = (Return tt, st1') ->
  update_ET_rate st2 = (Return tt, st2') ->
  ET (self st1') = ET (self st2').
Proof.
  intros HQ HE H1 H2.
  destruct (update_ET_rate_returns st1 st1' H1) as (q1 & e1 & A1 & B1 & C1).
  destruct (update_ET_rate_returns st2 st2' H2) as (q2 & e2 & A2 & B2 & C2).
  rewrite HQ, HE, A2 in A1. injection A1 as <-.
  rewrite B2 in B1. injection B1 as <-.
  rewrite C2 in C1. injection C1 as <-. reflexivity.
Qed.

(** X4.  The outputs are scalars exactly when the inputs they are computed
    from are: on scalars and grids of one shape, [Qc] is a scalar if and
    only if [K_soil], [T_soil_x], [T_surf] and [soil_x] all are, and [ET]
    is a scalar if and only if [Q_sum] and [Qe] both are. *)
Theorem outputs_scalar_iff_inputs_scalar t st :
  conforming t (self st) ->
  exists st',
    update_ET_rate st = (Return tt, st') /\
    (ndim (Qc (self st')) = 0 <->
       ndim (K_soil (self st)) = 0 /\ ndim (T_soil_x (self st)) = 0 /\
       ndim (T_surf (self st)) = 0 /\ ndim (soil_x (self st)) = 0) /\
    (ndim (ET (self st')) = 0 <->
       ndim (Q_sum (self st)) = 0 /\ ndim (Qe (self st)) = 0).
Proof.
  intros H.
  destruct (update_ET_rate_conforming t st H) as (qc & et & E & _ & _ & Sq & Se & _).
  eexists; split; [exact E|].
  assert (N : forall a : ndarray float64, ndim a = 0 <-> shape a = []).
  { intros a. unfold ndim. destruct (shape a); simpl; split; congruence. }
  cbn [self]. 
  assert (EQ : Qc (set_ET et (set_Qc qc (self st))) = qc)
    by (destruct (self st); reflexivity).
  assert (EE : ET (set_ET et (set_Qc qc (self st))) = et)
    by (destruct (self st); reflexivity).
  rewrite EQ, EE, !N. split; assumption.
Qed.

(** The constant [2.5e9] is a positive finite number. *)
Lemma rho_w_Lv_positive :
  isfinite rho_w_Lv = true /\ nonzero rho_w_Lv = true /\
  signbit rho_w_Lv = Some false.
Proof. repeat split; reflexivity. Qed.

Lemma isnan_inv x : isnan x = true -> x = S754_nan.
Proof. destruct x; try discriminate; reflexivity. Qed.

Lemma sub_nan x y : isnan x = true \/ isnan y = true -> sub x y = S754_nan.
Proof.
  intros [H|H]; apply isnan_inv in H; subst; [|destruct x]; reflexivity.
Qed.

Lemma evaporation_rate_nan q e :
  isnan q = true \/ isnan e = true -> evaporation_rate q e = S754_nan.
Proof. intros H. unfold evaporation_rate. rewrite (sub_nan q e H). reflexivity. Qed.

(** X5.  A NaN is not clipped away: on scalars and grids of one shape, a
    cell whose [Q_sum] or [Qe] is a NaN gets a NaN evaporation rate. *)
Theorem ET_nan_propagates t st k :
  conforming t (self st) -> k < size t ->
  isnan (item zero (Q_sum (self st)) k) = true \/
  isnan (item zero (Qe (self st)) k) = true ->
  exists st',
    update_ET_rate st = (Return tt, st') /\
    isnan (item zero (ET (self st')) k) = true.
Proof.
  intros H Hk Hn.
  destruct (update_ET_rate_conforming t st H) as (qc & et & E & _ & _ & _ & _ & I).
  eexists; split; [exact E|]. cbn [self].
  replace (ET (set_ET et (set_Qc qc (self st)))) with et
    by (destruct (self st); reflexivity).
  rewrite (proj2 (I k Hk)), (evaporation_rate_nan _ _ Hn). reflexivity.
Qed.

Lemma eqb_zero_inv x : eqb x zero = true -> nonzero x = false.
Proof.
  destruct x as [s|s| |s m e]; simpl; try reflexivity; try discriminate;
    destruct s; discriminate.
Qed.

Lemma div_by_zero x y : nonzero y = false -> isfinite (div x y) = false.
Proof.
  destruct y as [sy|sy| |sy my ey]; try discriminate. intros _.
  destruct x as [sx|sx| |sx mx ex]; reflexivity.
Qed.

(** X6.  A zero depth raises nothing: on scalars and grids of one shape the
    call returns, and a cell whose [soil_x] is zero gets a conductive flux
    that is an infinity or a NaN. *)
Theorem Qc_not_finite_at_zero_depth t st k :
  conforming t (self st) -> k < size t ->
  eqb (item zero (soil_x (self st)) k) zero = true ->
  exists st',
    update_ET_rate st = (Return tt, st') /\
    isfinite (item zero (Qc (self st')) k) = false.
Proof.
  intros H Hk Hz.
  destruct (update_ET_rate_conforming t st H) as (qc & et & E & _ & _ & _ & _ & I).
  eexists; split; [exact E|]. cbn [self].
  replace (Qc (set_ET et (set_Qc qc (self st)))) with qc
    by (destruct (self st); reflexivity).
  rewrite (proj1 (I k Hk)). unfold conductive_flux.
  apply div_by_zero, eqb_zero_inv, Hz.
Qed.

Lemma leb_zero_inv x :
  leb zero x = true -> nonzero x = false \/ signbit x = Some false.
Proof.
  destruct x as [s|s| |s m e]; simpl; try discriminate;
    try (left; reflexivity); destruct s; try discriminate; right; reflexivity.
Qed.

Lemma div_rho_nonneg x : leb zero x = true -> leb zero (div x rho_w_Lv) = true.
Proof.
  intros H. destruct (leb_zero_inv x H) as [Z|S].
  - assert (N : nonzero (div x rho_w_Lv) = false)
      by exact (div_zero_l x rho_w_Lv eq_refl eq_refl Z).
    destruct (div x rho_w_Lv); try discriminate; reflexivity.
  - apply leb_zero_signbit.
    exact (div_signbit x rho_w_Lv false false eq_refl eq_refl S eq_refl).
Qed.

(** X7.  A net energy at or above zero is not clipped: on scalars and grids
    of one shape, a cell with [Q_sum - Qe >= 0] gets exactly the quotient
    [(Q_sum - Qe) / 2.5e9] as its evaporation rate. *)
Theorem ET_is_quotient_when_energy_nonneg t st k :
  conforming t (self st) -> k < size t ->
  leb zero (sub (item zero (Q_sum (self st)) k) (item zero (Qe (self st)) k))
  = true ->
  exists st',
    update_ET_rate st = (Return tt, st') /\
    item zero (ET (self st')) k
    = div (sub (item zero (Q_sum (self st)) k) (item zero (Qe (self st)) k))
        rho_w_Lv.
Proof.
  intros H Hk Hp.
  destruct (update_ET_rate_conforming t st H) as (qc & et & E & _ & _ & _ & _ & I).
  eexists; split; [exact E|]. cbn [self].
  replace (ET (set_ET et (set_Qc qc (self st)))) with et
    by (destruct (self st); reflexivity).
  rewrite (proj2 (I k Hk)). unfold evaporation_rate, maximum.
  change (of_Z 2500000000) with rho_w_Lv. change (of_Z 0) with zero.
  unfold geb. change (SFleb zero ?x) with (leb zero x).
  rewrite (div_rho_nonneg _ Hp). reflexivity.
Qed.

Lemma binop_of_shape {A} (op : A -> A -> A) a b t :
  broadcast_shapes (shape a) (shape b) = Some t ->
  exists r, binop op a b = Some r /\ shape r = t.
Proof. unfold binop. intros ->. eexists; split; reflexivity. Qed.

Lemma broadcast_shapes_nil_r s : broadcast_shapes s [] = Some s.
Proof.
  unfold broadcast_shapes. cbn [length]. rewrite Nat.max_0_r, pad_id, pad_nil.
  apply bdims_ones_r.
Qed.

Lemma get_set_Qc_ET c qc et :
  Qc (set_ET et (set_Qc qc c)) = qc /\ ET (set_ET et (set_Qc qc c)) = et.
Proof. destruct c; split; reflexivity. Qed.

(** On shapes that combine, the call returns. *)
Lemma update_ET_rate_on_shapes st s1 s2 s3 s4 :
  broadcast_shapes (shape (T_soil_x (self st))) (shape (T_surf (self st)))
  = Some s1 ->
  broadcast_shapes (shape (K_soil (self st))) s1 = Some s2 ->
  broadcast_shapes s2 (shape (soil_x (self st))) = Some s3 ->
  broadcast_shapes (shape (Q_sum (self st))) (shape (Qe (self st))) = Some s4 ->
  exists qc et,
    update_ET_rate st
    = (Return tt,
       mk_state (set_ET et (set_Qc qc (self st))) (cls st) (files st) (stdout st))
    /\ shape qc = s3 /\ shape et = s4.
Proof.
  intros H1 H2 H3 H4.
  destruct (binop_of_shape sub _ _ _ H1) as (dT & E1 & S1).
  rewrite <- S1 in H2.
  destruct (binop_of_shape mul _ _ _ H2) as (p & E2 & S2).
  rewrite <- S2 in H3.
  destruct (binop_of_shape div _ _ _ H3) as (qc & E3 & S3).
  destruct (binop_of_shape sub _ _ _ H4) as (qet & E4 & S4).
  destruct (binop_of_shape div qet (scalar rho_w_Lv) _ (broadcast_shapes_nil_r _))
    as (et & E5 & S5).
  destruct (binop_of_shape maximum et (scalar zero) _ (broadcast_shapes_nil_r _))
    as (m & E6 & S6).
  rewrite update_ET_rate_run. cbv zeta. rewrite E1, E2, E3, E4, E5, E6.
  exists qc, m. split; [reflexivity|]. split; congruence.
Qed.

(** X8.  The call returns on every combination of shapes that NumPy can
    broadcast, not only on scalars and grids of one shape: when the shapes
    of the soil inputs and of the surface temperature combine to [s3] and
    those of [Q_sum] and [Qe] to [s4], it returns with a [Qc] of shape [s3]
    and an [ET] of shape [s4]. *)
Theorem update_ET_rate_broadcasts st s1 s2 s3 s4 :
  broadcast_shapes (shape (T_soil_x (self st))) (shape (T_surf (self st)))
  = Some s1 ->
  broadcast_shapes (shape (K_soil (self st))) s1 = Some s2 ->
  broadcast_shapes s2 (shape (soil_x (self st))) = Some s3 ->
  broadcast_shapes (shape (Q_sum (self st))) (shape (Qe (self st))) = Some s4 ->
  exists st',
    update_ET_rate st = (Return tt, st') /\
    shape (Qc (self st')) = s3 /\ shape (ET (self st')) = s4.
Proof.
  intros H1 H2 H3 H4.
  destruct (update_ET_rate_on_shapes st s1 s2 s3 s4 H1 H2 H3 H4)
    as (qc & et & E & HQ & HE).
  eexists; split; [exact E|]. cbn [self].
  destruct (get_set_Qc_ET (self st) qc et) as [-> ->].
  split; assumption.
Qed.

(** X9.  The only exception [update_ET_rate] raises is NumPy's broadcasting
    error, it raises it only when the shapes of its inputs do not combine,
    and a call that raises has not written [ET]. *)
Theorem update_ET_rate_raises_on_shapes_only st e st' :
  update_ET_rate st = (Raise e, st') ->
  e = broadcast_error /\
  ET (self st') = ET (self st) /\
  ~ (exists s1 s2 s3 s4,
       broadcast_shapes (shape (T_soil_x (self st))) (shape (T_surf (self st)))
       = Some s1 /\
       broadcast_shapes (shape (K_soil (self st))) s1 = Some s2 /\
       broadcast_shapes s2 (shape (soil_x (self st))) = Some s3 /\
       broadcast_shapes (shape (Q_sum (self st))) (shape (Qe (self st)))
       = Some s4).
Proof.
  intros H.
  assert (N : ~ exists s1 s2 s3 s4,
       broadcast_shapes (shape (T_soil_x (self st))) (shape (T_surf (self st)))
       = Some s1 /\
       broadcast_shapes (shape (K_soil (self st))) s1 = Some s2 /\
       broadcast_shapes s2 (shape (soil_x (self st))) = Some s3 /\
       broadcast_shapes (shape (Q_sum (self st))) (shape (Qe (self st)))
       = Some s4).
  { intros (s1 & s2 & s3 & s4 & H1 & H2 & H3 & H4).
    destruct (update_ET_rate_on_shapes st s1 s2 s3 s4 H1 H2 H3 H4)
      as (qc & et & E & _).
    rewrite E in H. discriminate. }
  rewrite update_ET_rate_run in H. cbv zeta in H.
  destruct (binop sub (T_soil_x (self st)) (T_surf (self st))) as [dT|];
    [|injection H as <- <-; auto].
  destruct (binop mul (K_soil (self st)) dT) as [p|];
    [|injection H as <- <-; auto].
  destruct (binop div p (soil_x (self st))) as [qc|];
    [|injection H as <- <-; auto].
  assert (K : ET (set_Qc qc (self st)) = ET (self st))
    by (destruct (self st); reflexivity).
  destruct (binop sub (Q_sum (self st)) (Qe (self st))) as [qet|];
    [|injection H as <- <-; auto].
  destruct (binop div qet (scalar rho_w_Lv)) as [et|];
    [|injection H as <- <-; auto].
  destruct (binop maximum et (scalar zero)) as [m|];
    [discriminate|injection H as <- <-; auto].
Qed.

Lemma ndim_0 {A} (a : ndarray A) : ndim a = 0 <-> shape a = [].
Proof. unfold ndim. destruct (shape a); simpl; split; congruence. Qed.

Lemma get_set_ALL_SCALARS b c : ALL_SCALARS (set_ALL_SCALARS b c) = b.
Proof. destruct c; reflexivity. Qed.

(** X10.  [ALL_SCALARS] speaks for [ET] but not for [Qc]: the surface
    temperature is not among the inputs that [check_input_types] looks at.
    On scalars and grids of one shape, when the flag comes out true the
    stored [ET] is a scalar, while [Qc] has the shape of [T_surf]. *)
Theorem ALL_SCALARS_covers_ET_not_Qc t st :
  conforming t (self st) ->
  ALL_SCALARS (self (snd (check_input_types st))) = true ->
  exists st',
    update_ET_rate st = (Return tt, st') /\
    shape (ET (self st')) = [] /\
    shape (Qc (self st')) = shape (T_surf (self st)).
Proof.
  intros H F.
  rewrite check_input_types_run in F. cbn [snd self] in F.
  rewrite get_set_ALL_SCALARS in F.
  unfold np_all in F. cbn [forallb] in F.
  repeat (apply andb_prop in F as [?N F]).
  apply Nat.eqb_eq, ndim_0 in N, N0, N1, N3, N4.
  destruct (update_ET_rate_conforming t st H)
    as (qc & et & E & Cq & _ & Sq & Se & _).
  eexists; split; [exact E|]. cbn [self].
  destruct (get_set_Qc_ET (self st) qc et) as [-> ->].
  split; [apply Se; auto|].
  destruct H as (_ & _ & [_ [Ts|Ts]] & _).
  - rewrite Ts. apply Sq; auto.
  - destruct Cq as [_ [Q|Q]]; [|congruence].
    destruct (proj1 Sq Q) as (_ & _ & Q' & _). congruence.
Qed.

(** X11.  [check_input_types] and [update_ET_rate] do not interfere: each
    reads only the inputs and writes only its own fields, so they can be
    called in either order with the same outcome of the update and the same
    final state. *)
Theorem check_input_types_update_ET_rate_commute st :
  fst (update_ET_rate (snd (check_input_types st))) = fst (update_ET_rate st)
  /\ snd (update_ET_rate (snd (check_input_types st)))
     = snd (check_input_types (snd (update_ET_rate st))).
Proof.
  destruct st as [c k fs out].
  destruct c as [q1 q2 q3 q4 q5 q6 q7 q8 q9 q10 b d f1 f2 f3 t1 t2 t3
                    u1 u2 u3 g].
  rewrite (check_input_types_run (mk_state _ k fs out)).
  rewrite !update_ET_rate_run. update_fields.
  destruct (binop sub q6 q3) as [dT|]; [|split; reflexivity].
  destruct (binop mul q8 dT) as [p|]; [|split; reflexivity].
  destruct (binop div p q7) as [qc|]; [|split; reflexivity].
  destruct (binop sub q1 q2) as [qet|]; [|split; reflexivity].
  destruct (binop div qet (scalar rho_w_Lv)) as [et|]; [|split; reflexivity].
  destruct (binop maximum et (scalar zero)) as [m|]; split; reflexivity.
Qed.

End Update_more.

(* ===================================================================== *)
(** * Further properties of the metadata *)
(* ===================================================================== *)

Section Metadata_more.
Context `{MI : ModelInput}.
Implicit Types (st : state) (c : component).

(** X12.  An attribute that is in the table once its name is lower-cased is
    returned, with nothing printed and the state left as it was. *)
Theorem get_attribute_finds st att_name v :
  _att_map (cls st) !! lower att_name = Some v ->
  get_attribute att_name st = (Return (Some v), st).
Proof.
  intros H.
  unfold get_attribute, try_except, bind, gets, getitem, ret. rewrite H.
  reflexivity.
Qed.

(** X13.  [get_attribute] does not look at the case of the name: two names
    that are equal once lower-cased get the same answer. *)
Theorem get_attribute_case_insensitive st n1 n2 :
  lower n1 = lower n2 ->
  fst (get_attribute n1 st) = fst (get_attribute n2 st).
Proof.
  intros H.
  unfold get_attribute, try_except, bind, gets, getitem, print, modify, ret.
  rewrite H. destruct (_att_map (cls st) !! lower n2); reflexivity.
Qed.

(** X14.  The metadata getters are read-only: the name lists and the two
    identifier lookups leave the whole state as it is, also when a lookup
    raises, and [get_attribute] changes nothing but the output stream. *)
Theorem metadata_getters_read_only :
  keeps (fun st => st) get_input_var_names /\
  keeps (fun st => st) get_output_var_names /\
  (forall id, keeps (fun st => st) (get_var_name id)) /\
  (forall id, keeps (fun st => st) (get_var_units id)) /\
  (forall n, keeps (fun st => (self st, cls st, files st)) (get_attribute n)).
Proof.
  split; [unfold get_input_var_names; keeps_all|].
  split; [unfold get_output_var_names; keeps_all|].
  split; [intro id; unfold get_var_name; keeps_all|].
  split; [intro id; unfold get_var_units; keeps_all|].
  intro n. unfold get_attribute. keeps_all.
Qed.

(** X15.  The name map and the unit map of the class have the same
    identifiers: [get_var_name] raises [KeyError] on an identifier exactly
    when [get_var_units] does. *)
Theorem name_and_units_defined_together st id :
  cls st = evap_component ->
  (get_var_name id st = (Raise (KeyError id), st) <->
   get_var_units id st = (Raise (KeyError id), st)).
Proof.
  intros Hcls. unfold get_var_name, get_var_units, bind, gets, getitem.
  rewrite Hcls.
  assert (E : _var_name_map evap_component !! id = None <->
              _var_units_map evap_component !! id = None).
  { unfold evap_component, _var_name_map, _var_units_map.
    rewrite <- !not_elem_of_list_to_map. reflexivity. }
  destruct (_var_name_map evap_component !! id) as [n|] eqn:En;
    destruct (_var_units_map evap_component !! id) as [u|] eqn:Eu;
    unfold ret, raise; split; try discriminate; try reflexivity; intros _.
  - destruct E as [_ E]. specialize (E eq_refl). discriminate.
  - destruct E as [E _]. specialize (E eq_refl). discriminate.
Qed.

Lemma list_to_map_Some_In (l : list (string * string)) k v :
  (list_to_map l : gmap string string) !! k = Some v -> In (k, v) l.
Proof. intros H. apply list_elem_of_In, elem_of_list_to_map_2, H. Qed.

Lemma In_snd_inj {K V} (l : list (K * V)) k1 k2 v :
  List.NoDup (map snd l) -> In (k1, v) l -> In (k2, v) l -> k1 = k2.
Proof.
  induction l as [|[k w] l IH]; [intros _ []|].
  cbn [map snd]. intros N. inversion N as [|? ? Hn N']; subst.
  intros [E1|H1] [E2|H2].
  - congruence.
  - injection E1 as -> ->. exfalso. apply Hn.
    change v with (snd (k2, v)). apply in_map, H2.
  - injection E2 as -> ->. exfalso. apply Hn.
    change v with (snd (k1, v)). apply in_map, H1.
  - apply IH; assumption.
Qed.

(** X16.  No two identifiers share a variable: when [get_var_name] returns
    the same short name for two identifiers, they are the same identifier. *)
Theorem get_var_name_injective st id1 id2 n :
  cls st = evap_component ->
  get_var_name id1 st = (Return n, st) ->
  get_var_name id2 st = (Return n, st) ->
  id1 = id2.
Proof.
  intros Hcls. unfold get_var_name, bind, gets, getitem. rewrite Hcls.
  destruct (_var_name_map evap_component !! id1) as [n1|] eqn:E1; [|discriminate].
  destruct (_var_name_map evap_component !! id2) as [n2|] eqn:E2; [|discriminate].
  unfold ret. intros [= ->] [= ->].
  apply list_to_map_Some_In in E1, E2.
  refine (In_snd_inj _ id1 id2 n _ E1 E2).
  cbn [map snd].
  repeat (constructor; [cbn [In]; intuition discriminate|]). constructor.
Qed.

End Metadata_more.

(* ===================================================================== *)
(** * Further properties of the input files *)
(* ===================================================================== *)

Section Files_more.
Context `{MI : ModelInput}.
Implicit Types (st : state) (c : component).

(** X17.  When the three files open, [open_input_files] returns with the
    three handles stored in [K_soil_unit], [soil_x_unit] and
    [T_soil_x_unit]; the files are opened in this order, each on its
    prefixed path. *)
Theorem open_input_files_opens st u1 u2 u3 fs1 fs2 fs3 :
  open_file (K_soil_type (self st))
    (in_directory (self st) ++ K_soil_file (self st)) (files st)
  = (Return u1, fs1) ->
  open_file (soil_x_type (self st))
    (in_directory (self st) ++ soil_x_file (self st)) fs1
  = (Return u2, fs2) ->
  open_file (T_soil_x_type (self st))
    (in_directory (self st) ++ T_soil_x_file (self st)) fs2
  = (Return u3, fs3) ->
  fst (open_input_files st) = Return tt /\
  files (snd (open_input_files st)) = fs3 /\
  K_soil_unit (self (snd (open_input_files st))) = u1 /\
  soil_x_unit (self (snd (open_input_files st))) = u2 /\
  T_soil_x_unit (self (snd (open_input_files st))) = u3.
Proof.
  unfold open_input_files, bind, attr, gets, call, setattr, modify.
  destruct st as [c k fs out].
  destruct c as [q1 q2 q3 q4 q5 q6 q7 q8 q9 q10 b d f1 f2 f3 t1 t2 t3
                    v1 v2 v3 g].
  cbn. intros H1 H2 H3. rewrite H1. cbn. rewrite H2. cbn. rewrite H3. cbn.
  repeat split; reflexivity.
Qed.

(** X18.  A file that cannot be opened leaves the component half
    configured: when [open_input_files] raises, the error is the one
    [model_input.open_file] raised, the three paths have already been
    prefixed with the directory, and [T_soil_x_unit] has not been
    assigned. *)
Theorem open_input_files_failure st e st' :
  open_input_files st = (Raise e, st') ->
  (exists ty path fs fs', open_file ty path fs = (Raise e, fs')) /\
  K_soil_file (self st') = in_directory (self st) ++ K_soil_file (self st) /\
  soil_x_file (self st') = in_directory (self st) ++ soil_x_file (self st) /\
  T_soil_x_file (self st')
  = in_directory (self st) ++ T_soil_x_file (self st) /\
  T_soil_x_unit (self st') = T_soil_x_unit (self st).
Proof.
  unfold open_input_files, bind, attr, gets, call, setattr, modify.
  destruct st as [c k fs out].
  destruct c as [q1 q2 q3 q4 q5 q6 q7 q8 q9 q10 b d f1 f2 f3 t1 t2 t3
                    v1 v2 v3 g].
  cbn.
  destruct (open_file t1 (d ++ f1) fs) as [[w1|e1] fs1] eqn:E1; cbn.
  2:{ intros [= <- <-]. cbn. split; [eauto 6|auto]. }
  destruct (open_file t2 (d ++ f2) fs1) as [[w2|e2] fs2] eqn:E2; cbn.
  2:{ intros [= <- <-]. cbn. split; [eauto 6|auto]. }
  destruct (open_file t3 (d ++ f3) fs2) as [[w3|e3] fs3] eqn:E3; cbn.
  - discriminate.
  - intros [= <- <-]. cbn. split; [eauto 6|auto].
Qed.

(** X19.  [open_input_files] touches paths, handles and files only: the
    ten numeric fields, the flag, the directory, the three input types,
    the class and the output stream are as before, whether it returns or
    raises. *)
Theorem open_input_files_keeps_data :
  keeps (fun st =>
           let c := self st in
           (Q_sum c, Qe c, T_surf c, T_air c, h_snow c, T_soil_x c, soil_x c,
            K_soil c, Qc c, ET c, ALL_SCALARS c, in_directory c,
            K_soil_type c, soil_x_type c, T_soil_x_type c, rti c,
            cls st, stdout st))
    open_input_files.
Proof. unfold open_input_files. keeps_all. Qed.

(** X20.  A failed read leaves the earlier input updated: when the read
    of [K_soil] gives nothing or an array of one item and the read of
    [soil_x] raises, [read_input_files] raises that error with the value
    read for [K_soil] already stored and [soil_x] and [T_soil_x] as they
    were. *)
Theorem read_input_files_partial st r1 fs1 e fs2 :
  read_next (K_soil_unit (self st)) (K_soil_type (self st)) (rti (self st))
    (files st) = (Return r1, fs1) ->
  single r1 ->
  read_next (soil_x_unit (self st)) (soil_x_type (self st)) (rti (self st))
    fs1 = (Raise e, fs2) ->
  read_input_files st
  = (Raise e,
     mk_state (set_K_soil (default (K_soil (self st)) r1) (self st))
       (cls st) fs2 (stdout st))
  /\ K_soil (self (snd (read_input_files st))) = default (K_soil (self st)) r1
  /\ soil_x (self (snd (read_input_files st))) = soil_x (self st)
  /\ T_soil_x (self (snd (read_input_files st))) = T_soil_x (self st).
Proof.
  intros H1 S1 H2.
  assert (E : read_input_files st
    = (Raise e,
       mk_state (set_K_soil (default (K_soil (self st)) r1) (self st))
         (cls st) fs2 (stdout st))).
  { unfold read_input_files, bind, attr, gets, call.
    destruct st as [c k fs out]. read_fields.
    rewrite H1. read_fields. rewrite (store_if_read_single _ _ _ S1).
    destruct c as [q1 q2 q3 q4 q5 q6 q7 q8 q9 q10 b d f1 f2 f3 t1 t2 t3
                      v1 v2 v3 g].
    destruct r1 as [x1|]; read_fields; rewrite H2; reflexivity. }
  rewrite E. split; [reflexivity|]. cbn [snd self].
  destruct (self st); repeat split; reflexivity.
Qed.

(** X24.  Values of one item are stored, missing values are not:
    [read_input_files] reads [K_soil], [soil_x] and [T_soil_x] in this
    order, and when each read gives nothing or an array of one item, the
    call returns with each field holding the value read if there is one
    and its previous value if there is none.  Returning or raising, the
    call changes no other field of the instance, nor the tables of the
    class, nor the printed output. *)
Theorem read_input_files_stores_single_values :
  (forall st r1 r2 r3 fs1 fs2 fs3,
     read_next (K_soil_unit (self st)) (K_soil_type (self st)) (rti (self st))
       (files st) = (Return r1, fs1) ->
     read_next (soil_x_unit (self st)) (soil_x_type (self st)) (rti (self st))
       fs1 = (Return r2, fs2) ->
     read_next (T_soil_x_unit (self st)) (T_soil_x_type (self st))
       (rti (self st)) fs2 = (Return r3, fs3) ->
     single r1 -> single r2 -> single r3 ->
     read_input_files st
     = (Return tt,
        mk_state
          (set_T_soil_x (default (T_soil_x (self st)) r3)
             (set_soil_x (default (soil_x (self st)) r2)
                (set_K_soil (default (K_soil (self st)) r1) (self st))))
          (cls st) fs3 (stdout st))
     /\ K_soil (self (snd (read_input_files st)))
        = default (K_soil (self st)) r1
     /\ soil_x (self (snd (read_input_files st)))
        = default (soil_x (self st)) r2
     /\ T_soil_x (self (snd (read_input_files st)))
        = default (T_soil_x (self st)) r3)
  /\ keeps (fun st => (without_file_inputs (self st), cls st, stdout st))
       read_input_files.
Proof.
  split.
  - intros st r1 r2 r3 fs1 fs2 fs3 H1 H2 H3 S1 S2 S3.
    assert (E : read_input_files st
     = (Return tt,
        mk_state
          (set_T_soil_x (default (T_soil_x (self st)) r3)
             (set_soil_x (default (soil_x (self st)) r2)
                (set_K_soil (default (K_soil (self st)) r1) (self st))))
          (cls st) fs3 (stdout st))).
    { unfold read_input_files, bind, attr, gets, call.
      destruct st as [c k fs out]. read_fields.
      rewrite H1. read_fields. rewrite (store_if_read_single _ _ _ S1).
      destruct c as [q1 q2 q3 q4 q5 q6 q7 q8 q9 q10 b d f1 f2 f3 t1 t2 t3
                        v1 v2 v3 g].
      destruct r1 as [x1|]; read_fields; rewrite H2; read_fields;
        rewrite (store_if_read_single _ _ _ S2);
        destruct r2 as [x2|]; read_fields; rewrite H3; read_fields;
        rewrite (store_if_read_single _ _ _ S3);
        destruct r3 as [x3|]; reflexivity. }
    rewrite E. split; [reflexivity|]. cbn [snd self].
    destruct (self st); repeat split; reflexivity.
  - unfold read_input_files. keeps_all.
Qed.

(** X21.  With the three input types ['Scalar'] there is nothing to close:
    [close_input_files] returns without a call to [close] and leaves the
    state, files included, as it is. *)
Theorem close_input_files_scalars st :
  K_soil_type (self st) = "Scalar" ->
  soil_x_type (self st) = "Scalar" ->
  T_soil_x_type (self st) = "Scalar" ->
  close_input_files st = (Return tt, st).
Proof.
  destruct st as [c k fs out]. cbn [self]. intros H1 H2 H3.
  unfold close_input_files, close_unless_scalar, bind, attr, gets.
  cbn [self]. rewrite H1. cbn. rewrite H2. cbn. rewrite H3. reflexivity.
Qed.

(** X22.  [close_input_files] acts on the files only: the instance, the
    class and the output stream are as before, whether the closes return
    or raise. *)
Theorem close_input_files_keeps_instance :
  keeps (fun st => (self st, cls st, stdout st)) close_input_files.
Proof.
  unfold close_input_files.
  apply keeps_bind; [|intros _; apply keeps_bind; [|intros _]];
    apply keeps_close_unless_scalar; intros [[] ? ? ?] ?; reflexivity.
Qed.

(** X23.  Inputs whose type is not ['Scalar'] are closed in the order
    [K_soil], [soil_x], [T_soil_x]: when none of the three types is
    ['Scalar'] and the three closes return, [close_input_files] returns
    with the files as the third close leaves them. *)
Theorem close_input_files_closes st fs1 fs2 fs3 :
  K_soil_type (self st) <> "Scalar" ->
  soil_x_type (self st) <> "Scalar" ->
  T_soil_x_type (self st) <> "Scalar" ->
  close (K_soil_unit (self st)) (files st) = (Return tt, fs1) ->
  close (soil_x_unit (self st)) fs1 = (Return tt, fs2) ->
  close (T_soil_x_unit (self st)) fs2 = (Return tt, fs3) ->
  close_input_files st
  = (Return tt, mk_state (self st) (cls st) fs3 (stdout st)).
Proof.
  destruct st as [c k fs out]. cbn [self cls files stdout].
  intros H1 H2 H3 C1 C2 C3. apply String.eqb_neq in H1, H2, H3.
  unfold close_input_files, close_unless_scalar, bind, attr, gets, call.
  cbn [self files cls stdout]. rewrite H1. cbn. rewrite C1. cbn.
  rewrite H2. cbn. rewrite C2. cbn. rewrite H3. cbn. rewrite C3. reflexivity.
Qed.

End Files_more.

(* ===================================================================== *)
(** * The further properties on examples *)
(* ===================================================================== *)

Lemma conforming_blank : conforming [] blank.
Proof. repeat split; left; reflexivity. Qed.

Lemma conforming_unknown_energy : conforming [] unknown_energy.
Proof. repeat split; left; reflexivity. Qed.

Lemma conforming_grid_surface : conforming [2] grid_surface.
Proof. repeat split; first [left; reflexivity | right; reflexivity]. Qed.

Lemma update_ET_rate_partial_failure_witness :
  update_ET_rate (start mismatched)
  = (Raise broadcast_error, start (set_Qc (scalar zero) mismatched)) /\
  ET (self (snd (update_ET_rate (start mismatched)))) = ET mismatched.
Proof.
  destruct (update_ET_rate_partial_failure (start mismatched)
              (scalar zero) (scalar zero) (scalar zero)
              eq_refl eq_refl eq_refl eq_refl) as (E & _ & K).
  split; [exact E | exact K].
Defined.

Lemma ET_depends_on_Q_sum_and_Qe_only_witness :
  ET (self (snd (update_ET_rate (start scenario_A))))
  = ET (self (snd (update_ET_rate (start grid_surface)))).
Proof.
  exact (ET_depends_on_Q_sum_and_Qe_only (start scenario_A) (start grid_surface)
           (snd (update_ET_rate (start scenario_A)))
           (snd (update_ET_rate (start grid_surface)))
           eq_refl eq_refl eq_refl eq_refl).
Defined.

Lemma outputs_scalar_iff_inputs_scalar_witness :
  ndim (Qc (self (snd (update_ET_rate (start grid_surface))))) <> 0 /\
  ndim (ET (self (snd (update_ET_rate (start grid_surface))))) = 0.
Proof.
  destruct (outputs_scalar_iff_inputs_scalar [2] (start grid_surface)
              conforming_grid_surface) as (st' & E & HQ & HE).
  rewrite E. cbn [snd]. split.
  - intros H. apply HQ in H. destruct H as (_ & _ & H & _). discriminate H.
  - apply HE. split; reflexivity.
Defined.

Lemma ET_nan_propagates_witness :
  isnan (item zero (ET (self (snd (update_ET_rate (start unknown_energy))))) 0)
  = true.
Proof.
  destruct (ET_nan_propagates [] (start unknown_energy) 0
              conforming_unknown_energy (Nat.lt_0_succ 0) (or_introl eq_refl))
    as (st' & E & H).
  rewrite E. exact H.
Defined.

Lemma Qc_not_finite_at_zero_depth_witness :
  isfinite (item zero (Qc (self (snd (update_ET_rate (start blank))))) 0)
  = false.
Proof.
  destruct (Qc_not_finite_at_zero_depth [] (start blank) 0
              conforming_blank (Nat.lt_0_succ 0) eq_refl) as (st' & E & H).
  rewrite E. exact H.
Defined.

Lemma ET_is_quotient_when_energy_nonneg_witness :
  item zero (ET (self (snd (update_ET_rate (start scenario_A))))) 0
  = div (of_Z 250) rho_w_Lv.
Proof.
  destruct (ET_is_quotient_when_energy_nonneg [] (start scenario_A) 0
              conforming_scenario_A (Nat.lt_0_succ 0) eq_refl)
    as (st' & E & H).
  rewrite E. cbn [snd]. rewrite H. reflexivity.
Defined.

Lemma update_ET_rate_broadcasts_witness :
  fst (update_ET_rate (start broadcasting)) = Return tt /\
  shape (Qc (self (snd (update_ET_rate (start broadcasting))))) = [2; 3] /\
  shape (ET (self (snd (update_ET_rate (start broadcasting))))) = [2; 3].
Proof.
  destruct (update_ET_rate_broadcasts (start broadcasting)
              [2; 3] [2; 3] [2; 3] [2; 3] eq_refl eq_refl eq_refl eq_refl)
    as (st' & E & HQ & HE).
  rewrite E. repeat split; assumption.
Defined.

Lemma update_ET_rate_raises_on_shapes_only_witness :
  fst (update_ET_rate (start mismatched)) = Raise broadcast_error /\
  ET (self (snd (update_ET_rate (start mismatched)))) = ET mismatched.
Proof.
  destruct (update_ET_rate_raises_on_shapes_only (start mismatched)
              broadcast_error (snd (update_ET_rate (start mismatched)))
              eq_refl) as (_ & K & _).
  split; [reflexivity | exact K].
Defined.

Lemma ALL_SCALARS_covers_ET_not_Qc_witness :
  ALL_SCALARS (self (snd (check_input_types (start grid_surface)))) = true /\
  shape (ET (self (snd (update_ET_rate (start grid_surface))))) = [] /\
  shape (Qc (self (snd (update_ET_rate (start grid_surface))))) = [2].
Proof.
  destruct (ALL_SCALARS_covers_ET_not_Qc [2] (start grid_surface)
              conforming_grid_surface eq_refl) as (st' & E & HE & HQ).
  rewrite E. cbn [snd]. split; [reflexivity|]. split; [exact HE | exact HQ].
Defined.

Lemma get_attribute_finds_witness :
  get_attribute "Model_Name" (start blank)
  = (Return (Some "TopoFlow_Evaporation_Energy_Balance"), start blank).
Proof. exact (get_attribute_finds (start blank) "Model_Name" _ eq_refl). Defined.

Lemma get_attribute_case_insensitive_witness :
  fst (get_attribute "VERSION" (start blank))
  = fst (get_attribute "version" (start blank)).
Proof.
  exact (get_attribute_case_insensitive (start blank) "VERSION" "version"
           eq_refl).
Defined.

Lemma name_and_units_defined_together_witness :
  get_var_name "land_surface__elevation" (start blank)
  = (Raise (KeyError "land_surface__elevation"), start blank) <->
  get_var_units "land_surface__elevation" (start blank)
  = (Raise (KeyError "land_surface__elevation"), start blank).
Proof.
  exact (name_and_units_defined_together (start blank)
           "land_surface__elevation" eq_refl).
Defined.

Lemma get_var_name_injective_witness :
  "soil__thermal_conductivity" = "soil__thermal_conductivity".
Proof.
  exact (get_var_name_injective (start blank) "soil__thermal_conductivity"
           "soil__thermal_conductivity" "K_soil" eq_refl eq_refl eq_refl).
Defined.

Lemma open_input_files_opens_witness :
  fst (open_input_files (start configured)) = Return tt /\
  K_soil_unit (self (snd (open_input_files (start configured)))) = "in/K.txt" /\
  soil_x_unit (self (snd (open_input_files (start configured)))) = "in/x.txt" /\
  T_soil_x_unit (self (snd (open_input_files (start configured)))) = "in/T.txt".
Proof.
  destruct (open_input_files_opens (start configured)
              "in/K.txt" "in/x.txt" "in/T.txt" ∅ ∅ ∅ eq_refl eq_refl eq_refl)
    as (R & _ & H1 & H2 & H3).
  repeat split; assumption.
Defined.

Lemma open_input_files_failure_witness :
  fst (open_input_files (start lost)) = Raise (IOError "in/K.txt") /\
  K_soil_file (self (snd (open_input_files (start lost)))) = "in/K.txt" /\
  T_soil_x_file (self (snd (open_input_files (start lost)))) = "in/T.txt" /\
  T_soil_x_unit (self (snd (open_input_files (start lost)))) = "".
Proof.
  destruct (open_input_files_failure (start lost) (IOError "in/K.txt")
              (snd (open_input_files (start lost))) eq_refl)
    as (_ & H1 & _ & H3 & H4).
  split; [reflexivity|]. rewrite H1, H3, H4. repeat split; reflexivity.
Defined.

Lemma single_scalar x : single (Some (scalar x)).
Proof. intros a [= <-]. reflexivity. Qed.

Lemma single_None : single None.
Proof. intros a H. discriminate H. Qed.

Lemma read_input_files_partial_witness :
  fst (read_input_files half_read) = Raise (IOError "in/x.txt") /\
  K_soil (self (snd (read_input_files half_read))) = scalar (of_ratio 45 100).
Proof.
  destruct (read_input_files_partial half_read
              (Some (scalar (of_ratio 45 100)))
              (<["in/K.txt" := []]> (files half_read))
              (IOError "in/x.txt")
              (<["in/K.txt" := []]> (files half_read))
              eq_refl (single_scalar _) eq_refl) as (E & HK & _).
  rewrite E. split; [reflexivity|]. rewrite E in HK. exact HK.
Defined.

(** One record is read for the conductivity; the scalar inputs keep their
    values. *)
Lemma read_input_files_stores_single_values_witness :
  K_soil (self (snd (read_input_files reading))) = scalar (of_ratio 45 100) /\
  soil_x (self (snd (read_input_files reading))) = soil_x (self reading) /\
  T_soil_x (self (snd (read_input_files reading))) = T_soil_x (self reading).
Proof.
  destruct (proj1 read_input_files_stores_single_values reading
              (Some (scalar (of_ratio 45 100))) None None
              (<["in/K.txt" := []]> (files reading))
              (<["in/K.txt" := []]> (files reading))
              (<["in/K.txt" := []]> (files reading))
              eq_refl eq_refl eq_refl
              (single_scalar _) single_None single_None)
    as (_ & HK & Hx & HT).
  rewrite HK, Hx, HT. repeat split; reflexivity.
Defined.

Lemma close_input_files_scalars_witness :
  close_input_files (start blank) = (Return tt, start blank).
Proof.
  exact (close_input_files_scalars (start blank) eq_refl eq_refl eq_refl).
Defined.

Lemma close_input_files_closes_witness :
  close_input_files (start on_grids) = (Return tt, start on_grids).
Proof.
  assert (N : forall s : string, s = "Grid" -> s <> "Scalar")
    by (intros s ->; discriminate).
  exact (close_input_files_closes (start on_grids) ∅ ∅ ∅
           (N _ eq_refl) (N _ eq_refl) (N _ eq_refl)
           eq_refl eq_refl eq_refl).
Defined.
